(** * ioBroker.puppeteer: the screenshot adapter of [src/main.ts]

    A shallow embedding of the [PuppeteerAdapter] class: its three event
    handlers ([onReady], [onUnload], [onStateChange]) and the three private
    helpers that read the configuration states ([gatherScreenshotOptions],
    [gatherScreenshotClipOptions], [waitForConditions]).

    The browser engine, the state store and the logger are collaborators
    outside the adapter.  Every call to one of them is recorded as an
    [Event] of a trace, and what the collaborator answers is taken from a
    [World]: the configuration snapshot the store holds and, for every call
    that may reject, whether it does.  [async] functions become
    computations of the monad [Async], which threads the adapter object
    (its one field [browser]) and the trace, and which either returns or
    throws.

    A handler is run to completion on its own: the interleaving of two
    handlers at their [await]s is not modelled.  Reading a state and
    writing a log line do not throw. *)

From Stdlib Require Import SpecFloat.
From stdpp Require Import base option list strings gmap.

(** ** Values held by states *)

(** A JavaScript [number] is an IEEE 754 double; only its class matters to
    the adapter (zero and NaN are falsy). *)
Definition number : Type := spec_float.

(** [ioBroker.StateValue = string | number | boolean | null]. *)
Inductive StateValue : Type :=
  | VNull
  | VBool (b : bool)
  | VNum (n : number)
  | VStr (s : string).

(** The part of [ioBroker.State] the adapter looks at. *)
Record State : Type := mkState { val : StateValue; ack : bool }.

Definition number_truthy (n : number) : bool :=
  match n with
  | S754_zero _ => false
  | S754_nan => false
  | S754_infinity _ => true
  | S754_finite _ _ _ => true
  end.

Definition string_truthy (s : string) : bool :=
  match s with
  | EmptyString => false
  | String _ _ => true
  end.

(** JavaScript's ToBoolean on a state value. *)
Definition truthy (v : StateValue) : bool :=
  match v with
  | VNull => false
  | VBool b => b
  | VNum n => number_truthy n
  | VStr s => string_truthy s
  end.

(** ** Screenshot options *)

(** The object built by [gatherScreenshotClipOptions]: a
    [Partial<ScreenshotClip>], returned under the cast [as ScreenshotClip]. *)
Record ScreenshotClip : Type := mkClip {
  clip_x : option number;
  clip_y : option number;
  clip_height : option number;
  clip_width : option number }.

Inductive ClipAttribute : Type := attr_x | attr_y | attr_height | attr_width.

(** [options[attributeName] = v]. *)
Definition set_attribute (a : ClipAttribute) (v : number) (o : ScreenshotClip)
  : ScreenshotClip :=
  match a with
  | attr_x => mkClip (Some v) (clip_y o) (clip_height o) (clip_width o)
  | attr_y => mkClip (clip_x o) (Some v) (clip_height o) (clip_width o)
  | attr_height => mkClip (clip_x o) (clip_y o) (Some v) (clip_width o)
  | attr_width => mkClip (clip_x o) (clip_y o) (clip_height o) (Some v)
  end.

Definition empty_clip : ScreenshotClip := mkClip None None None None.

(** The fields of puppeteer's [ScreenshotOptions] the adapter sets; a field
    that was never assigned is [None].  [path] holds the state value as it
    is ([filenameState.val as string] is a cast, not a conversion). *)
Record ScreenshotOptions : Type := mkOptions {
  path : option StateValue;
  fullPage : option bool;
  clip : option ScreenshotClip }.

Definition empty_options : ScreenshotOptions := mkOptions None None None.

Definition set_path (v : StateValue) (o : ScreenshotOptions) : ScreenshotOptions :=
  mkOptions (Some v) (fullPage o) (clip o).
Definition set_fullPage (b : bool) (o : ScreenshotOptions) : ScreenshotOptions :=
  mkOptions (path o) (Some b) (clip o).
Definition set_clip (c : ScreenshotClip) (o : ScreenshotOptions) : ScreenshotOptions :=
  mkOptions (path o) (fullPage o) (Some c).

(** [!options.path] and [!options.fullPage]. *)
Definition not_path (o : ScreenshotOptions) : bool :=
  match path o with
  | None => true
  | Some v => negb (truthy v)
  end.

Definition not_fullPage (o : ScreenshotOptions) : bool :=
  match fullPage o with
  | None => true
  | Some b => negb b
  end.

(** ** Collaborators, events and the world *)

Record Error : Type := mkError { message : string }.

Inductive Browser : Type := BrowserHandle (n : nat).
Inductive Page : Type := PageHandle (n : nat).

Inductive LogLevel : Type := Debug | Info | LogError.

(** The log lines of the adapter, with the interpolated values kept as
    data. *)
Inductive LogMessage : Type :=
  | ReadyToTakeScreenshots
  | ClosingBrowser
  | PleaseSpecifyFilename
  | ScreenshotOptionsAre (o : ScreenshotOptions)
  | TakingScreenshotOf (v : StateValue)
  | ScreenshotSaved
  | CouldNotTakeScreenshot (v : StateValue) (m : string)
  | IgnoringClipFullPage
  | IgnoringClipNotConfigured (id : string)
  | WaitingForSelector (selector : string)
  | WaitingForTimeout (ms : number).

(** One call to a collaborator. *)
Inductive Event : Type :=
  | ESubscribeStates (pattern : string)
  | ELaunch
  | ELog (lvl : LogLevel) (msg : LogMessage)
  | EGetState (id : string)
  | ESetState (id : string) (v : StateValue) (a : bool)
  | ENewPage (b : Browser)
  | EGoto (p : Page) (url : StateValue)
  | EWaitForSelector (p : Page) (selector : string)
  | EWaitForTimeout (p : Page) (ms : number)
  | EScreenshot (p : Page) (o : ScreenshotOptions)
  | EPageClose (p : Page)
  | EBrowserClose (b : Browser)
  | ECallback.

(** What the collaborators answer.  [None] in a [_result] means the promise
    resolves, [Some e] that it rejects with [e]. *)
Record World : Type := mkWorld {
  config : gmap string State;
  launch_result : Error + Browser;
  newPage_result : Browser -> Error + Page;
  goto_result : Page -> StateValue -> option Error;
  waitForSelector_result : Page -> string -> option Error;
  waitForTimeout_result : Page -> number -> option Error;
  screenshot_result : Page -> ScreenshotOptions -> option Error;
  setState_result : string -> StateValue -> bool -> option Error;
  pageClose_result : Page -> option Error;
  browserClose_result : Browser -> option Error }.

(** ** The [Async] monad *)

(** The adapter object: [private browser: Browser | undefined]. *)
Record Adapter : Type := mkAdapter { browser : option Browser }.

Record Sys : Type := mkSys { adapter : Adapter; trace : list Event }.

Inductive Outcome (A : Type) : Type :=
  | Returned (a : A)
  | Thrown (e : Error).
Arguments Returned {A} a.
Arguments Thrown {A} e.

Definition Async (A : Type) : Type := Sys -> Outcome A * Sys.

#[global] Instance Async_ret : MRet Async :=
  fun A a s => (Returned a, s).

#[global] Instance Async_bind : MBind Async :=
  fun A B k m s =>
    match m s with
    | (Returned a, s') => k a s'
    | (Thrown e, s') => (Thrown e, s')
    end.

Definition throw {A : Type} (e : Error) : Async A :=
  fun s => (Thrown e, s).

(** [try { body } catch (e) { handler e }]. *)
Definition try_catch {A : Type} (body : Async A) (handler : Error -> Async A)
  : Async A :=
  fun s =>
    match body s with
    | (Returned a, s') => (Returned a, s')
    | (Thrown e, s') => handler e s'
    end.

Definition emit (e : Event) : Async unit :=
  fun s => (Returned tt, mkSys (adapter s) (trace s ++ [e])).

Definition get_browser : Async (option Browser) :=
  fun s => (Returned (browser (adapter s)), s).

Definition set_browser (b : option Browser) : Async unit :=
  fun s => (Returned tt, mkSys (mkAdapter b) (trace s)).

(** A call whose promise resolves to nothing or rejects. *)
Definition settle (r : option Error) : Async unit :=
  match r with
  | None => mret tt
  | Some e => throw e
  end.

Definition settle_with {A : Type} (r : Error + A) : Async A :=
  match r with
  | inr a => mret a
  | inl e => throw e
  end.

Definition count (p : Event -> bool) (tr : list Event) : nat :=
  length (List.filter p tr).

(** A completion callback [() => void]: whether its n-th invocation (from
    0, counted on the trace) throws. *)
Definition Callback : Type := nat -> option Error.

Definition is_callback (e : Event) : bool :=
  match e with ECallback => true | _ => false end.

Definition invoke (callback : Callback) : Async unit :=
  fun s =>
    let n := count is_callback (trace s) in
    (emit ECallback ;; settle (callback n)) s.

(** ** The adapter *)

Module PuppeteerAdapter.
Section Adapter.

Variable w : World.

(** *** Calls to the collaborators *)

Definition log (lvl : LogLevel) (msg : LogMessage) : Async unit :=
  emit (ELog lvl msg).

(** [this.getStateAsync(id)]: the state, or [null]/[undefined] when the
    store has none.  The promise is taken to resolve: a read that rejects
    (a store that is down) is outside the model, and what is proved of the
    handlers is proved for reads that answer. *)
Definition getStateAsync (id : string) : Async (option State) :=
  emit (EGetState id) ;; mret (config w !! id).

Definition setStateAsync (id : string) (v : StateValue) (a : bool) : Async unit :=
  emit (ESetState id v a) ;; settle (setState_result w id v a).

Definition subscribeStates (pattern : string) : Async unit :=
  emit (ESubscribeStates pattern).

Definition launch : Async Browser :=
  emit ELaunch ;; settle_with (launch_result w).

Definition browser_close (b : Browser) : Async unit :=
  emit (EBrowserClose b) ;; settle (browserClose_result w b).

Definition newPage (b : Browser) : Async Page :=
  emit (ENewPage b) ;; settle_with (newPage_result w b).

Definition page_goto (p : Page) (url : StateValue) : Async unit :=
  emit (EGoto p url) ;; settle (goto_result w p url).

Definition page_waitForSelector (p : Page) (selector : string) : Async unit :=
  emit (EWaitForSelector p selector) ;; settle (waitForSelector_result w p selector).

Definition page_waitForTimeout (p : Page) (ms : number) : Async unit :=
  emit (EWaitForTimeout p ms) ;; settle (waitForTimeout_result w p ms).

Definition page_screenshot (p : Page) (o : ScreenshotOptions) : Async unit :=
  emit (EScreenshot p o) ;; settle (screenshot_result w p o).

Definition page_close (p : Page) : Async unit :=
  emit (EPageClose p) ;; settle (pageClose_result w p).

(** *** [gatherScreenshotClipOptions] *)

(** [Object.entries(clipAttributes)], in insertion order. *)
Definition clipAttributes : list (string * ClipAttribute) :=
  [("clipLeft", attr_x); ("clipTop", attr_y);
   ("clipHeight", attr_height); ("clipWidth", attr_width)].

(** The [for ... of] loop; [None] is the bare [return] (void). *)
Fixpoint clip_loop (entries : list (string * ClipAttribute))
    (options : ScreenshotClip) : Async (option ScreenshotClip) :=
  match entries with
  | [] => mret (Some options)
  | (id, attributeName) :: rest =>
      clipAttributeState ← getStateAsync id;
      match clipAttributeState with
      | Some (mkState (VNum n) _) =>
          clip_loop rest (set_attribute attributeName n options)
      | _ =>
          log Debug (IgnoringClipNotConfigured id) ;;
          mret None
      end
  end.

Definition gatherScreenshotClipOptions : Async (option ScreenshotClip) :=
  clip_loop clipAttributes empty_clip.

(** *** [gatherScreenshotOptions] *)

Definition gatherScreenshotOptions : Async ScreenshotOptions :=
  let options := empty_options in
  filenameState ← getStateAsync "filename";
  let options :=
    match filenameState with
    | Some st => if truthy (val st) then set_path (val st) options else options
    | None => options
    end in
  fullPageState ← getStateAsync "fullPage";
  let options :=
    match fullPageState with
    | Some st => set_fullPage (truthy (val st)) options
    | None => options
    end in
  if not_fullPage options then
    clipOptions ← gatherScreenshotClipOptions;
    match clipOptions with
    | Some c => mret (set_clip c options)
    | None => mret options
    end
  else
    log Debug IgnoringClipFullPage ;;
    mret options.

(** *** [waitForConditions] *)

(** [(await this.getStateAsync(id))?.val]: [None] is [undefined]. *)
Definition optional_val (st : option State) : option StateValue :=
  val <$> st.

(** [v && typeof v === 'string'], with the string it then is. *)
Definition truthy_string (v : option StateValue) : option string :=
  match v with
  | Some (VStr s) => if string_truthy s then Some s else None
  | _ => None
  end.

(** [v && typeof v === 'number'], with the number it then is. *)
Definition truthy_number (v : option StateValue) : option number :=
  match v with
  | Some (VNum n) => if number_truthy n then Some n else None
  | _ => None
  end.

Definition waitForConditions (page : Page) : Async unit :=
  selectorState ← getStateAsync "waitForSelector";
  let selector := optional_val selectorState in
  match truthy_string selector with
  | Some selector =>
      log Debug (WaitingForSelector selector) ;;
      page_waitForSelector page selector
  | None =>
      renderTimeState ← getStateAsync "renderTime";
      let renderTimeMs := optional_val renderTimeState in
      match truthy_number renderTimeMs with
      | Some renderTimeMs =>
          log Debug (WaitingForTimeout renderTimeMs) ;;
          page_waitForTimeout page renderTimeMs
      | None => mret tt
      end
  end.

(** *** [onReady] *)

Definition onReady : Async unit :=
  subscribeStates "url" ;;
  b ← launch;
  set_browser (Some b) ;;
  log Info ReadyToTakeScreenshots.

(** *** [onUnload] *)

Definition onUnload (callback : Callback) : Async unit :=
  try_catch
    (b ← get_browser;
     match b with
     | Some b =>
         log Info ClosingBrowser ;;
         browser_close b ;;
         set_browser None
     | None => mret tt
     end ;;
     invoke callback)
    (fun _ => invoke callback).

(** *** [onStateChange] *)

(** [this.browser.newPage()]: the field is read again at the call; on
    [undefined] the property access throws a TypeError. *)
Definition this_browser_newPage : Async Page :=
  b ← get_browser;
  match b with
  | Some b => newPage b
  | None =>
      throw (mkError "Cannot read properties of undefined (reading 'newPage')")
  end.

(** [state && state.val && !state.ack]. *)
Definition wants_screenshot (state : option State) : option State :=
  match state with
  | Some st => if truthy (val st) && negb (ack st) then Some st else None
  | None => None
  end.

Definition onStateChange (id : string) (state : option State) : Async unit :=
  b ← get_browser;
  match b with
  | None => mret tt
  | Some _ =>
      match wants_screenshot state with
      | None => mret tt
      | Some state =>
          options ← gatherScreenshotOptions;
          if not_path options then
            log LogError PleaseSpecifyFilename
          else
            log Debug (ScreenshotOptionsAre options) ;;
            log Info (TakingScreenshotOf (val state)) ;;
            try_catch
              (page ← this_browser_newPage;
               page_goto page (val state) ;;
               waitForConditions page ;;
               page_screenshot page options ;;
               log Info ScreenshotSaved ;;
               setStateAsync id (val state) true ;;
               page_close page)
              (fun e =>
                 log LogError (CouldNotTakeScreenshot (val state) (message e)))
      end
  end.

End Adapter.
End PuppeteerAdapter.

(** ** Observing a run *)

(** A handler run on the adapter [a], from the empty trace. *)
Definition run {A : Type} (m : Async A) (a : Adapter) : Outcome A * Sys :=
  m (mkSys a []).

Definition is_get_state (key : string) (e : Event) : bool :=
  match e with EGetState id => bool_decide (id = key) | _ => false end.
Definition is_set_state (e : Event) : bool :=
  match e with ESetState _ _ _ => true | _ => false end.
Definition is_new_page (e : Event) : bool :=
  match e with ENewPage _ => true | _ => false end.
Definition is_goto (e : Event) : bool :=
  match e with EGoto _ _ => true | _ => false end.
Definition is_screenshot (e : Event) : bool :=
  match e with EScreenshot _ _ => true | _ => false end.
Definition is_page_close (e : Event) : bool :=
  match e with EPageClose _ => true | _ => false end.

(** Reads of the configuration and debug lines: all that the helpers
    gathering the options do. *)
Definition is_config_access (e : Event) : bool :=
  match e with EGetState _ | ELog Debug _ => true | _ => false end.

(** The same, and the two waits of [waitForConditions]. *)
Definition is_wait_step (e : Event) : bool :=
  match e with
  | EGetState _ | ELog Debug _ | EWaitForSelector _ _ | EWaitForTimeout _ _ => true
  | _ => false
  end.

(** The wait strategies of the specification's data model, and the one a
    trace shows: the first wait the page was asked for, if any. *)
Inductive WaitStrategy : Type :=
  | NoWait
  | Selector (selector : string)
  | FixedDelay (ms : number).

Fixpoint wait_applied (tr : list Event) : WaitStrategy :=
  match tr with
  | [] => NoWait
  | EWaitForSelector _ s :: _ => Selector s
  | EWaitForTimeout _ n :: _ => FixedDelay n
  | _ :: tr => wait_applied tr
  end.

(** The four clip keys, and how many of them hold a value of type number. *)
Definition clip_keys : list string := PuppeteerAdapter.clipAttributes.*1.

Definition is_number (st : option State) : bool :=
  match st with
  | Some (mkState (VNum _) _) => true
  | _ => false
  end.

Definition numeric_clip_keys (cfg : gmap string State) : nat :=
  length (List.filter (fun k => is_number (cfg !! k)) clip_keys).

(** A state that is absent, or whose value is [null] or the empty string. *)
Definition absent_or_empty (st : option State) : bool :=
  match st with
  | None => true
  | Some (mkState VNull _) => true
  | Some (mkState (VStr EmptyString) _) => true
  | Some _ => false
  end.

(** *** Example worlds *)

Definition finite (m : positive) : number := S754_finite false m 0.

(** A browser that launches and a page on which every call resolves. *)
Definition resolving (cfg : gmap string State) : World :=
  mkWorld cfg (inr (BrowserHandle 1)) (fun _ => inr (PageHandle 1))
    (fun _ _ => None) (fun _ _ => None) (fun _ _ => None) (fun _ _ => None)
    (fun _ _ _ => None) (fun _ => None) (fun _ => None).

(** The same, but the navigation rejects. *)
Definition unreachable (cfg : gmap string State) : World :=
  mkWorld cfg (inr (BrowserHandle 1)) (fun _ => inr (PageHandle 1))
    (fun _ _ => Some (mkError "net::ERR_NAME_NOT_RESOLVED"))
    (fun _ _ => None) (fun _ _ => None) (fun _ _ => None)
    (fun _ _ _ => None) (fun _ => None) (fun _ => None).

(** The same as [resolving], but closing the browser rejects. *)
Definition stuck_browser (cfg : gmap string State) : World :=
  mkWorld cfg (inr (BrowserHandle 1)) (fun _ => inr (PageHandle 1))
    (fun _ _ => None) (fun _ _ => None) (fun _ _ => None) (fun _ _ => None)
    (fun _ _ _ => None) (fun _ => None)
    (fun _ => Some (mkError "Protocol error: Target closed")).

Definition ready : Adapter := mkAdapter (Some (BrowserHandle 1)).

Definition url_id : string := "puppeteer.0.url".
Definition trigger (url : string) : State := mkState (VStr url) false.

Definition cfg_filename : gmap string State :=
  {[ "filename" := mkState (VStr "/tmp/out.png") true ]}.

(** Full page wanted, and a complete clip region configured as well. *)
Definition cfg_fullPage_and_clip : gmap string State :=
  <["fullPage" := mkState (VBool true) true]>
  (<["clipLeft" := mkState (VNum (finite 10)) true]>
  (<["clipTop" := mkState (VNum (finite 20)) true]>
  (<["clipHeight" := mkState (VNum (finite 300)) true]>
  (<["clipWidth" := mkState (VNum (finite 400)) true]> cfg_filename)))).

(** Three clip keys hold numbers, [clipHeight] holds a string. *)
Definition cfg_partial_clip : gmap string State :=
  <["clipLeft" := mkState (VNum (finite 10)) true]>
  (<["clipTop" := mkState (VNum (finite 20)) true]>
  (<["clipHeight" := mkState (VStr "300") true]>
  (<["clipWidth" := mkState (VNum (finite 400)) true]> cfg_filename))).

(** Both waits configured. *)
Definition cfg_selector_and_renderTime : gmap string State :=
  <["waitForSelector" := mkState (VStr "#main") true]>
  (<["renderTime" := mkState (VNum (finite 500)) true]> cfg_filename).

Definition cfg_renderTime (n : number) : gmap string State :=
  <["renderTime" := mkState (VNum n) true]> cfg_filename.

(** *** Further observations and example worlds *)

Definition is_browser_close (e : Event) : bool :=
  match e with EBrowserClose _ => true | _ => false end.

(** The error line of the [catch] block of [onStateChange]. *)
Definition report (v : StateValue) (e : Error) : Event :=
  ELog LogError (CouldNotTakeScreenshot v (message e)).

(** The calls one run of the [try] block of [onStateChange] can make, for
    the browser [b], the trigger [id] with value [v] and the options [o]:
    one shape for each statement at which the block can be left. *)
Inductive attempt (b : Browser) (id : string) (v : StateValue)
    (o : ScreenshotOptions) : list Event -> Prop :=
  | attempt_newPage_rejects e :
      attempt b id v o [ENewPage b; report v e]
  | attempt_goto_rejects p e :
      attempt b id v o [ENewPage b; EGoto p v; report v e]
  | attempt_wait_rejects p waits e :
      forallb is_wait_step waits = true ->
      attempt b id v o (ENewPage b :: EGoto p v :: waits ++ [report v e])
  | attempt_screenshot_rejects p waits e :
      forallb is_wait_step waits = true ->
      attempt b id v o
        (ENewPage b :: EGoto p v :: waits ++ [EScreenshot p o; report v e])
  | attempt_setState_rejects p waits e :
      forallb is_wait_step waits = true ->
      attempt b id v o
        (ENewPage b :: EGoto p v :: waits ++
         [EScreenshot p o; ELog Info ScreenshotSaved; ESetState id v true;
          report v e])
  | attempt_close_rejects p waits e :
      forallb is_wait_step waits = true ->
      attempt b id v o
        (ENewPage b :: EGoto p v :: waits ++
         [EScreenshot p o; ELog Info ScreenshotSaved; ESetState id v true;
          EPageClose p; report v e])
  | attempt_completes p waits :
      forallb is_wait_step waits = true ->
      attempt b id v o
        (ENewPage b :: EGoto p v :: waits ++
         [EScreenshot p o; ELog Info ScreenshotSaved; ESetState id v true;
          EPageClose p]).

(** The error [e] is the rejection of one of the calls the [try] block
    makes before the acknowledgement: [newPage] on the browser [b], or, on
    the page it gave, [goto] with [v], one of the two waits, or
    [screenshot] with [o]. *)
Definition rejected_before_ack (w : World) (b : Browser) (v : StateValue)
    (o : ScreenshotOptions) (e : Error) : Prop :=
  newPage_result w b = inl e
  \/ exists p,
       newPage_result w b = inr p
       /\ (goto_result w p v = Some e
           \/ (exists selector, waitForSelector_result w p selector = Some e)
           \/ (exists ms, waitForTimeout_result w p ms = Some e)
           \/ screenshot_result w p o = Some e).

(** The browser does not launch. *)
Definition launch_failing (cfg : gmap string State) : World :=
  mkWorld cfg (inl (mkError "Failed to launch the browser process"))
    (fun _ => inr (PageHandle 1))
    (fun _ _ => None) (fun _ _ => None) (fun _ _ => None) (fun _ _ => None)
    (fun _ _ _ => None) (fun _ => None) (fun _ => None).

(** The same as [resolving], but no selector ever appears. *)
Definition selector_timeout (cfg : gmap string State) : World :=
  mkWorld cfg (inr (BrowserHandle 1)) (fun _ => inr (PageHandle 1))
    (fun _ _ => None)
    (fun _ _ => Some (mkError "waiting for selector failed: timeout"))
    (fun _ _ => None) (fun _ _ => None)
    (fun _ _ _ => None) (fun _ => None) (fun _ => None).

Definition unloaded : Adapter := mkAdapter None.

(** A complete clip region, and no [fullPage] state. *)
Definition cfg_clip : gmap string State :=
  <["clipLeft" := mkState (VNum (finite 10)) true]>
  (<["clipTop" := mkState (VNum (finite 20)) true]>
  (<["clipHeight" := mkState (VNum (finite 300)) true]>
  (<["clipWidth" := mkState (VNum (finite 400)) true]> cfg_filename))).

(** [waitForSelector] holds a number, [renderTime] a delay. *)
Definition cfg_numeric_selector : gmap string State :=
  <["waitForSelector" := mkState (VNum (finite 5)) true]>
  (<["renderTime" := mkState (VNum (finite 500)) true]> cfg_filename).

(** A callback that throws when first invoked, and not after. *)
Definition throws_once : Callback :=
  fun n =>
    match n with
    | 0 => Some (mkError "callback failed")
    | S _ => None
    end.

(** *** Properties of computations *)

(** [m] leaves the adapter object alone and adds to the trace only events
    that satisfy [P]. *)
Definition emits_only (P : Event -> bool) {A : Type} (m : Async A) : Prop :=
  forall s, exists tr,
    (m s).2 = mkSys (adapter s) (trace s ++ tr) /\ forallb P tr = true.

(** ** Laws of the monad *)

Section AsyncLaws.

Context {A B : Type}.

Lemma bind_returned (m : Async A) (k : A -> Async B) s a s' :
  m s = (Returned a, s') -> (m ≫= k) s = k a s'.
Proof. intros H. unfold mbind, Async_bind. now rewrite H. Qed.

End AsyncLaws.

Lemma sys_eta s : mkSys (adapter s) (trace s) = s.
Proof. now destruct s. Qed.

Section EmitsOnly.

Variable P : Event -> bool.

Lemma emits_only_ret {A} (a : A) : emits_only P (mret a).
Proof.
  intros s. exists []. cbn. now rewrite app_nil_r, sys_eta.
Qed.

Lemma emits_only_throw {A} e : emits_only P (@throw A e).
Proof.
  intros s. exists []. cbn. now rewrite app_nil_r, sys_eta.
Qed.

Lemma emits_only_emit e : P e = true -> emits_only P (emit e).
Proof.
  intros He s. exists [e]. cbn. now rewrite He.
Qed.

Lemma emits_only_get_browser : emits_only P get_browser.
Proof.
  intros s. exists []. cbn. now rewrite app_nil_r, sys_eta.
Qed.

Lemma emits_only_bind {A B} (m : Async A) (k : A -> Async B) :
  emits_only P m -> (forall a, emits_only P (k a)) -> emits_only P (m ≫= k).
Proof.
  intros Hm Hk s. destruct (Hm s) as (tr & Hs & Htr).
  unfold mbind, Async_bind.
  destruct (m s) as [[a|e] s1]; cbn in Hs; subst s1.
  - destruct (Hk a (mkSys (adapter s) (trace s ++ tr))) as (tr' & Hs' & Htr').
    exists (tr ++ tr'). cbn in Hs'. rewrite Hs', <- app_assoc.
    split; [reflexivity|]. rewrite forallb_app, Htr, Htr'. reflexivity.
  - exists tr. auto.
Qed.

Lemma emits_only_try_catch {A} (m : Async A) h :
  emits_only P m -> (forall e, emits_only P (h e)) -> emits_only P (try_catch m h).
Proof.
  intros Hm Hh s. destruct (Hm s) as (tr & Hs & Htr).
  unfold try_catch.
  destruct (m s) as [[a|e] s1]; cbn in Hs; subst s1.
  - exists tr. auto.
  - destruct (Hh e (mkSys (adapter s) (trace s ++ tr))) as (tr' & Hs' & Htr').
    exists (tr ++ tr'). cbn in Hs'. rewrite Hs', <- app_assoc.
    split; [reflexivity|]. rewrite forallb_app, Htr, Htr'. reflexivity.
Qed.

Lemma emits_only_settle r : emits_only P (settle r).
Proof. destruct r; [apply emits_only_throw | apply emits_only_ret]. Qed.

Lemma emits_only_settle_with {A} (r : Error + A) : emits_only P (settle_with r).
Proof. destruct r; [apply emits_only_throw | apply emits_only_ret]. Qed.

End EmitsOnly.

Lemma emits_only_weaken (P Q : Event -> bool) {A} (m : Async A) :
  (forall e, P e = true -> Q e = true) -> emits_only P m -> emits_only Q m.
Proof.
  intros HPQ Hm s. destruct (Hm s) as (tr & Hs & Htr).
  exists tr. split; [assumption|].
  rewrite forallb_forall in *. auto.
Qed.

Create HintDb async discriminated.
#[export] Hint Resolve emits_only_ret emits_only_throw emits_only_emit
  emits_only_get_browser emits_only_bind emits_only_try_catch
  emits_only_settle emits_only_settle_with : async.

(** Events of one kind are absent from a trace made of another kind. *)
Lemma filter_disjoint (P q : Event -> bool) tr :
  forallb P tr = true -> (forall e, P e = true -> q e = false) ->
  List.filter q tr = [].
Proof.
  intros Htr Hd. induction tr as [|e tr IH]; [reflexivity|].
  cbn in Htr. apply andb_prop in Htr as [He Htr].
  cbn. rewrite (Hd e He). auto.
Qed.

Ltac async_unfold :=
  cbv [mbind mret Async_bind Async_ret emit throw settle settle_with
       get_browser set_browser try_catch PuppeteerAdapter.log];
  cbn [adapter trace browser fst snd].

(** ** The helpers that read the configuration *)

Section Helpers.

Variable w : World.

Import PuppeteerAdapter.

Lemma getStateAsync_run id s :
  getStateAsync w id s =
  (Returned (config w !! id), mkSys (adapter s) (trace s ++ [EGetState id])).
Proof. reflexivity. Qed.

Lemma emits_only_getStateAsync P id :
  P (EGetState id) = true -> emits_only P (getStateAsync w id).
Proof. intros. unfold getStateAsync. auto with async. Qed.

Lemma emits_only_log P lvl msg :
  P (ELog lvl msg) = true -> emits_only P (log lvl msg).
Proof. intros. unfold log. auto with async. Qed.

#[local] Hint Resolve emits_only_getStateAsync emits_only_log : async.

(** The loop over the clip keys returns, touches nothing but the
    configuration, and gives up at the first key without a number. *)
Lemma clip_loop_spec entries options s :
  exists r tr,
    clip_loop w entries options s =
      (Returned r, mkSys (adapter s) (trace s ++ tr))
    /\ forallb is_config_access tr = true
    /\ (forallb (fun k => is_number (config w !! k)) entries.*1 = false ->
        r = None).
Proof.
  revert options s.
  induction entries as [|[id attributeName] rest IH]; intros options s.
  - exists (Some options), []. cbn. rewrite app_nil_r, sys_eta.
    repeat split; discriminate.
  - cbn [clip_loop].
    rewrite (bind_returned _ _ _ _ _ (getStateAsync_run id s)).
    destruct (config w !! id) as [[v a]|] eqn:Hid.
    2: { exists None, [EGetState id; ELog Debug (IgnoringClipNotConfigured id)].
         async_unfold. rewrite <- app_assoc. auto. }
    destruct v as [| b | n | str];
      try (exists None, [EGetState id; ELog Debug (IgnoringClipNotConfigured id)];
           async_unfold; rewrite <- app_assoc; auto; fail).
    destruct (IH (set_attribute attributeName n options)
                 (mkSys (adapter s) (trace s ++ [EGetState id])))
      as (r & tr & Hrun & Htr & Hnone).
    exists r, (EGetState id :: tr). rewrite Hrun. cbn [adapter trace].
    rewrite <- app_assoc. repeat split; [assumption|].
    cbn. rewrite Hid. cbn. exact Hnone.
Qed.

Lemma numeric_clip_keys_lt cfg :
  numeric_clip_keys cfg < 4 ->
  forallb (fun k => is_number (cfg !! k)) clip_keys = false.
Proof.
  unfold numeric_clip_keys, clip_keys. cbn.
  repeat match goal with
         | |- context [is_number ?x] => destruct (is_number x); cbn
         end; auto; lia.
Qed.

(** [gatherScreenshotOptions] returns, touches nothing but the
    configuration, sets [path] from a truthy [filename] only, and attaches
    no clip unless all four clip keys hold numbers. *)
Lemma gatherScreenshotOptions_spec s :
  exists o tr,
    gatherScreenshotOptions w s =
      (Returned o, mkSys (adapter s) (trace s ++ tr))
    /\ forallb is_config_access tr = true
    /\ not_path o =
         match config w !! "filename" with
         | Some st => negb (truthy (val st))
         | None => true
         end
    /\ (numeric_clip_keys (config w) < 4 -> clip o = None).
Proof.
  unfold gatherScreenshotOptions.
  rewrite (bind_returned _ _ _ _ _ (getStateAsync_run "filename" s)).
  set (o1 := match config w !! "filename" with
             | Some st => if truthy (val st) then set_path (val st) empty_options
                          else empty_options
             | None => empty_options end).
  assert (Hpath : not_path o1 =
            match config w !! "filename" with
            | Some st => negb (truthy (val st)) | None => true end).
  { subst o1. destruct (config w !! "filename") as [st|]; [|reflexivity].
    destruct (truthy (val st)) eqn:Ht; cbn; [now rewrite Ht | reflexivity]. }
  assert (Hclip : clip o1 = None).
  { subst o1. destruct (config w !! "filename") as [st|]; [|reflexivity].
    now destruct (truthy (val st)). }
  clearbody o1.
  rewrite (bind_returned _ _ _ _ _ (getStateAsync_run "fullPage" _)).
  cbn [adapter trace].
  set (o2 := match config w !! "fullPage" with
             | Some st => set_fullPage (truthy (val st)) o1
             | None => o1 end).
  assert (Hpath2 : not_path o2 = not_path o1)
    by (subst o2; now destruct (config w !! "fullPage")).
  assert (Hclip2 : clip o2 = None)
    by (subst o2; now destruct (config w !! "fullPage")).
  clearbody o2. rewrite <- Hpath, <- Hpath2.
  destruct (not_fullPage o2).
  - unfold gatherScreenshotClipOptions.
    destruct (clip_loop_spec clipAttributes empty_clip
                (mkSys (adapter s) ((trace s ++ [EGetState "filename"]) ++
                                      [EGetState "fullPage"])))
      as (r & tr & Hrun & Htr & Hnone).
    rewrite (bind_returned _ _ _ _ _ Hrun). cbn [adapter trace].
    exists (match r with Some c => set_clip c o2 | None => o2 end),
           (EGetState "filename" :: EGetState "fullPage" :: tr).
    rewrite <- !app_assoc. cbn [app].
    split; [now destruct r|]. split; [exact Htr|].
    split; [now destruct r|].
    intros Hlt. rewrite (Hnone (numeric_clip_keys_lt _ Hlt)). exact Hclip2.
  - exists o2, [EGetState "filename"; EGetState "fullPage";
                ELog Debug IgnoringClipFullPage].
    async_unfold. rewrite <- !app_assoc. auto.
Qed.

End Helpers.

(** ** Composing the screenshot options *)

Section ScreenshotOptionsClaims.

Import PuppeteerAdapter.

(** C2.  When the [fullPage] state holds a truthy value, the options built
    by [gatherScreenshotOptions] carry no clip, whatever the clip keys
    hold: only [filename] and [fullPage] are read, none of the four clip
    keys is. *)
Theorem gatherScreenshotOptions_fullPage_skips_clip
    (w : World) (a : Adapter) (st : State) :
  config w !! "fullPage" = Some st ->
  truthy (val st) = true ->
  exists o,
    run (gatherScreenshotOptions w) a =
      (Returned o,
       mkSys a [EGetState "filename"; EGetState "fullPage";
                ELog Debug IgnoringClipFullPage])
    /\ fullPage o = Some true
    /\ clip o = None
    /\ forall k, k ∈ clip_keys ->
         count (is_get_state k)
           (trace (run (gatherScreenshotOptions w) a).2) = 0.
Proof.
  intros Hfull Htruthy.
  assert (Hrun : exists o,
    run (gatherScreenshotOptions w) a =
      (Returned o,
       mkSys a [EGetState "filename"; EGetState "fullPage";
                ELog Debug IgnoringClipFullPage])
    /\ fullPage o = Some true /\ clip o = None).
  { unfold run, gatherScreenshotOptions, getStateAsync. async_unfold.
    rewrite Hfull.
    destruct (config w !! "filename") as [fst|]; [destruct (truthy (val fst))|];
      cbn; rewrite Htruthy; cbn; eauto. }
  destruct Hrun as (o & Hrun & Hfp & Hclip).
  exists o. rewrite Hrun. repeat split; try assumption.
  intros k Hk. cbn [snd trace].
  unfold clip_keys in Hk. cbn in Hk.
  repeat (apply elem_of_cons in Hk as [->|Hk]; [reflexivity|]).
  now apply elem_of_nil in Hk.
Qed.

Lemma gatherScreenshotOptions_fullPage_skips_clip_witness :
  exists o,
    run (gatherScreenshotOptions (resolving cfg_fullPage_and_clip)) ready =
      (Returned o,
       mkSys ready [EGetState "filename"; EGetState "fullPage";
                    ELog Debug IgnoringClipFullPage])
    /\ fullPage o = Some true
    /\ clip o = None
    /\ forall k, k ∈ clip_keys ->
         count (is_get_state k)
           (trace (run (gatherScreenshotOptions
                          (resolving cfg_fullPage_and_clip)) ready).2) = 0.
Proof.
  apply (gatherScreenshotOptions_fullPage_skips_clip
           (resolving cfg_fullPage_and_clip) ready (mkState (VBool true) true));
    reflexivity.
Defined.

(** C3.  When fewer than four of the clip keys hold a value of type
    number, [gatherScreenshotClipOptions] returns nothing (and does not
    throw), and the options built by [gatherScreenshotOptions] carry no
    clip. *)
Theorem partial_clip_is_discarded (w : World) (a : Adapter) :
  numeric_clip_keys (config w) < 4 ->
  (run (gatherScreenshotClipOptions w) a).1 = Returned None
  /\ exists o,
       (run (gatherScreenshotOptions w) a).1 = Returned o /\ clip o = None.
Proof.
  intros Hlt. split.
  - unfold run, gatherScreenshotClipOptions.
    destruct (clip_loop_spec w clipAttributes empty_clip (mkSys a []))
      as (r & tr & Hrun & _ & Hnone).
    rewrite Hrun. cbn. f_equal. apply Hnone.
    now apply numeric_clip_keys_lt.
  - unfold run.
    destruct (gatherScreenshotOptions_spec w (mkSys a []))
      as (o & tr & Hrun & _ & _ & Hclip).
    exists o. rewrite Hrun. auto.
Qed.

Lemma partial_clip_is_discarded_witness :
  (run (gatherScreenshotClipOptions (resolving cfg_partial_clip)) ready).1
    = Returned None
  /\ exists o,
       (run (gatherScreenshotOptions (resolving cfg_partial_clip)) ready).1
         = Returned o /\ clip o = None.
Proof.
  apply (partial_clip_is_discarded (resolving cfg_partial_clip) ready).
  vm_compute. lia.
Defined.

End ScreenshotOptionsClaims.

(** ** Waiting before the capture *)

Section WaitClaims.

Import PuppeteerAdapter.

(** C4.  When [waitForSelector] holds a non-empty string, the wait applied
    is the wait for that selector, also when [renderTime] is configured:
    [renderTime] is not read. *)
Theorem waitForConditions_selector_first
    (w : World) (a : Adapter) (page : Page) (st : State) (selector : string) :
  config w !! "waitForSelector" = Some st ->
  val st = VStr selector ->
  selector <> "" ->
  let sys := (run (waitForConditions w page) a).2 in
  trace sys = [EGetState "waitForSelector";
               ELog Debug (WaitingForSelector selector);
               EWaitForSelector page selector]
  /\ wait_applied (trace sys) = Selector selector
  /\ count (is_get_state "renderTime") (trace sys) = 0.
Proof.
  intros Hsel Hval Hne.
  unfold run, waitForConditions, getStateAsync, page_waitForSelector.
  async_unfold. rewrite Hsel. cbn. rewrite Hval. cbn.
  destruct selector as [|c selector]; [congruence|]. cbn.
  destruct (waitForSelector_result w page (String c selector)); cbn; auto.
Qed.

Lemma waitForConditions_selector_first_witness :
  let sys := (run (waitForConditions (resolving cfg_selector_and_renderTime)
                     (PageHandle 1)) ready).2 in
  trace sys = [EGetState "waitForSelector";
               ELog Debug (WaitingForSelector "#main");
               EWaitForSelector (PageHandle 1) "#main"]
  /\ wait_applied (trace sys) = Selector "#main"
  /\ count (is_get_state "renderTime") (trace sys) = 0.
Proof.
  apply (waitForConditions_selector_first
           (resolving cfg_selector_and_renderTime) ready (PageHandle 1)
           (mkState (VStr "#main") true) "#main");
    [reflexivity | reflexivity | discriminate].
Defined.

(** A [renderTime] of 0 is a number, yet no wait is applied: the claim
    that every numeric [renderTime] gives a fixed delay fails there. *)
Lemma renderTime_zero_is_no_delay :
  let w := resolving (cfg_renderTime (S754_zero false)) in
  let sys := (run (waitForConditions w (PageHandle 1)) ready).2 in
  absent_or_empty (config w !! "waitForSelector") = true
  /\ config w !! "renderTime" = Some (mkState (VNum (S754_zero false)) true)
  /\ wait_applied (trace sys) <> FixedDelay (S754_zero false)
  /\ trace sys = [EGetState "waitForSelector"; EGetState "renderTime"].
Proof.
  vm_compute. repeat split; discriminate.
Qed.

(** C5, as the code has it.  When [waitForSelector] is absent or empty and
    [renderTime] holds a number, the wait applied is the fixed delay of
    that many milliseconds if the number is truthy (neither 0 nor NaN),
    and no wait at all if it is 0 or NaN. *)
Theorem waitForConditions_renderTime
    (w : World) (a : Adapter) (page : Page) (st : State) (ms : number) :
  absent_or_empty (config w !! "waitForSelector") = true ->
  config w !! "renderTime" = Some st ->
  val st = VNum ms ->
  let sys := (run (waitForConditions w page) a).2 in
  wait_applied (trace sys) =
    (if number_truthy ms then FixedDelay ms else NoWait)
  /\ trace sys =
       [EGetState "waitForSelector"; EGetState "renderTime"] ++
       (if number_truthy ms
        then [ELog Debug (WaitingForTimeout ms); EWaitForTimeout page ms]
        else []).
Proof.
  intros Hsel Hrt Hval.
  unfold run, waitForConditions, getStateAsync, page_waitForTimeout.
  async_unfold.
  assert (Hnone : truthy_string (optional_val (config w !! "waitForSelector"))
                  = None).
  { destruct (config w !! "waitForSelector") as [[[| | |[|]] ?]|];
      try discriminate Hsel; reflexivity. }
  rewrite Hnone, Hrt. cbn. rewrite Hval. cbn.
  destruct (number_truthy ms); cbn; [|auto].
  destruct (waitForTimeout_result w page ms); cbn; auto.
Qed.

Lemma waitForConditions_renderTime_witness :
  let sys := (run (waitForConditions (resolving (cfg_renderTime (finite 500)))
                     (PageHandle 1)) ready).2 in
  wait_applied (trace sys) = FixedDelay (finite 500)
  /\ trace sys =
       [EGetState "waitForSelector"; EGetState "renderTime";
        ELog Debug (WaitingForTimeout (finite 500));
        EWaitForTimeout (PageHandle 1) (finite 500)].
Proof.
  apply (waitForConditions_renderTime
           (resolving (cfg_renderTime (finite 500))) ready (PageHandle 1)
           (mkState (VNum (finite 500)) true) (finite 500));
    reflexivity.
Defined.

End WaitClaims.

(** ** The handlers *)

Section HandlerLemmas.

Variable w : World.

Import PuppeteerAdapter.

#[local] Hint Resolve emits_only_getStateAsync emits_only_log : async.

Lemma emits_only_gatherScreenshotOptions :
  emits_only is_config_access (gatherScreenshotOptions w).
Proof.
  intros s.
  destruct (gatherScreenshotOptions_spec w s) as (o & tr & Hrun & Htr & _).
  exists tr. now rewrite Hrun.
Qed.

Lemma emits_only_waitForConditions page :
  emits_only is_wait_step (waitForConditions w page).
Proof.
  unfold waitForConditions, page_waitForSelector, page_waitForTimeout.
  apply emits_only_bind; [auto with async|]. intros selectorState.
  destruct (truthy_string _); [auto 7 with async|].
  apply emits_only_bind; [auto with async|]. intros renderTimeState.
  destruct (truthy_number _); auto 7 with async.
Qed.

(** When no wait rejects on the page, [waitForConditions] returns. *)
Lemma waitForConditions_returns page s :
  (forall selector, waitForSelector_result w page selector = None) ->
  (forall ms, waitForTimeout_result w page ms = None) ->
  exists tr,
    waitForConditions w page s = (Returned tt, mkSys (adapter s) (trace s ++ tr))
    /\ forallb is_wait_step tr = true.
Proof.
  intros Hsel Hms.
  destruct (emits_only_waitForConditions page s) as (tr & Hs & Htr).
  exists tr. split; [|assumption].
  rewrite <- Hs. clear Hs Htr.
  unfold waitForConditions, getStateAsync, page_waitForSelector,
    page_waitForTimeout.
  async_unfold.
  destruct (truthy_string _) as [selector|].
  - now rewrite Hsel.
  - cbn. destruct (truthy_number _) as [ms|]; [now rewrite Hms | reflexivity].
Qed.

Lemma emits_only_onStateChange id state :
  emits_only (fun _ => true) (onStateChange w id state).
Proof.
  assert (Hany : forall (P : Event -> bool) e, P e = true -> (fun _ : Event => true) e = true)
    by reflexivity.
  unfold onStateChange.
  apply emits_only_bind; [auto with async|]. intros [b|]; [|auto with async].
  destruct (wants_screenshot state) as [st|]; [|auto with async].
  apply emits_only_bind.
  { eapply emits_only_weaken; [apply Hany | apply emits_only_gatherScreenshotOptions]. }
  intros options. destruct (not_path options); [auto with async|].
  do 2 (apply emits_only_bind; [auto with async|]; intros _).
  apply emits_only_try_catch; [|auto with async].
  apply emits_only_bind.
  { unfold this_browser_newPage, newPage.
    apply emits_only_bind; [auto with async|]. intros [b'|]; auto 6 with async. }
  intros page.
  unfold page_goto, page_screenshot, setStateAsync, page_close.
  apply emits_only_bind; [auto 6 with async|]; intros _.
  apply emits_only_bind.
  { eapply emits_only_weaken; [apply Hany | apply emits_only_waitForConditions]. }
  intros _. auto 12 with async.
Qed.

End HandlerLemmas.

Section HandlerClaims.

Import PuppeteerAdapter.

(** C8.  A notification that arrives after the browser was torn down, or
    whose state is missing or holds a falsy value, or that is already
    acknowledged, is a silent no-op: [onStateChange] returns without
    throwing and without a single call to a collaborator (no configuration
    read, no page, no log line), and the adapter is as it was. *)
Theorem onStateChange_ignores
    (w : World) (a : Adapter) (id : string) (state : option State) :
  browser a = None
  \/ state = None
  \/ (exists st, state = Some st /\ (truthy (val st) = false \/ ack st = true)) ->
  run (onStateChange w id state) a = (Returned tt, mkSys a []).
Proof.
  intros H. unfold run, onStateChange. async_unfold.
  destruct (browser a) as [b|] eqn:Hb; [|reflexivity].
  destruct H as [H | [-> | (st & -> & H)]]; [discriminate | reflexivity |].
  unfold wants_screenshot.
  destruct H as [-> | ->]; [reflexivity|].
  now rewrite andb_false_r.
Qed.

Lemma onStateChange_ignores_witness :
  run (onStateChange (resolving cfg_filename) url_id
         (Some (mkState (VStr "https://example.com") true))) ready
  = (Returned tt, mkSys ready []).
Proof.
  apply (onStateChange_ignores (resolving cfg_filename) ready url_id
           (Some (mkState (VStr "https://example.com") true))).
  right. right. exists (mkState (VStr "https://example.com") true).
  split; [reflexivity | right; reflexivity].
Defined.

(** C6.  A trigger (browser up, truthy value, not acknowledged) for which
    the [filename] state is absent or empty is aborted with the error line
    asking for a filename: the handler returns, everything before that
    line is a read of the configuration or a debug line, and neither
    [newPage] nor [goto] is called. *)
Theorem onStateChange_without_filename
    (w : World) (a : Adapter) (b : Browser) (id : string) (st : State) :
  browser a = Some b ->
  truthy (val st) = true ->
  ack st = false ->
  absent_or_empty (config w !! "filename") = true ->
  (run (onStateChange w id (Some st)) a).1 = Returned tt
  /\ (exists reads,
        trace (run (onStateChange w id (Some st)) a).2 =
          reads ++ [ELog LogError PleaseSpecifyFilename]
        /\ forallb is_config_access reads = true)
  /\ count is_new_page (trace (run (onStateChange w id (Some st)) a).2) = 0
  /\ count is_goto (trace (run (onStateChange w id (Some st)) a).2) = 0.
Proof.
  intros Hb Hval Hack Hfile.
  unfold run, onStateChange, wants_screenshot. async_unfold.
  rewrite Hb, Hval, Hack. cbn [andb negb].
  destruct (gatherScreenshotOptions_spec w (mkSys a []))
    as (o & reads & Hrun & Hreads & Hpath & _).
  rewrite Hrun. cbn [adapter trace app] in *.
  assert (Hnot : not_path o = true).
  { rewrite Hpath.
    destruct (config w !! "filename") as [[[| | |[|]] ?]|];
      try discriminate Hfile; reflexivity. }
  rewrite Hnot. cbn [fst snd trace].
  split; [reflexivity|]. split; [eauto|].
  unfold count. rewrite !List.filter_app. cbn.
  rewrite !(filter_disjoint is_config_access _ reads Hreads);
    [auto | now intros [] | now intros []].
Qed.

Lemma onStateChange_without_filename_witness :
  let sys := (run (onStateChange (resolving ∅) url_id
                     (Some (trigger "https://example.com"))) ready).2 in
  (run (onStateChange (resolving ∅) url_id
          (Some (trigger "https://example.com"))) ready).1 = Returned tt
  /\ (exists reads,
        trace sys = reads ++ [ELog LogError PleaseSpecifyFilename]
        /\ forallb is_config_access reads = true)
  /\ count is_new_page (trace sys) = 0
  /\ count is_goto (trace sys) = 0.
Proof.
  apply (onStateChange_without_filename (resolving ∅) ready (BrowserHandle 1)
           url_id (trigger "https://example.com"));
    reflexivity.
Defined.

(** C7.  On a trigger for which the page opens and the navigation, the
    wait and the capture all resolve, the handler returns and the state
    store is written exactly once: the triggering id, with the value of
    the trigger and [ack] true.  No other write happens, whether or not
    the write or the closing of the page then rejects. *)
Theorem onStateChange_acknowledges_once
    (w : World) (a : Adapter) (b : Browser) (page : Page)
    (id : string) (st filename : State) :
  browser a = Some b ->
  truthy (val st) = true ->
  ack st = false ->
  config w !! "filename" = Some filename ->
  truthy (val filename) = true ->
  newPage_result w b = inr page ->
  goto_result w page (val st) = None ->
  (forall selector, waitForSelector_result w page selector = None) ->
  (forall ms, waitForTimeout_result w page ms = None) ->
  (forall o, screenshot_result w page o = None) ->
  (run (onStateChange w id (Some st)) a).1 = Returned tt
  /\ List.filter is_set_state
       (trace (run (onStateChange w id (Some st)) a).2)
     = [ESetState id (val st) true]
  /\ count is_screenshot (trace (run (onStateChange w id (Some st)) a).2) = 1.
Proof.
  intros Hb Hval Hack Hfile Hname Hpage Hgoto Hsel Hms Hshot.
  unfold run, onStateChange, wants_screenshot, this_browser_newPage, newPage,
    page_goto, page_screenshot, setStateAsync, page_close.
  async_unfold.
  rewrite Hb, Hval, Hack. cbn [andb negb].
  destruct (gatherScreenshotOptions_spec w (mkSys a []))
    as (o & reads & Hrun & Hreads & Hpath & _).
  rewrite Hrun. cbn [adapter trace app] in *.
  rewrite Hfile, Hname in Hpath. cbn in Hpath. rewrite Hpath.
  cbn [adapter trace]. rewrite Hb, Hpage. cbn [adapter trace].
  rewrite Hgoto. cbn [adapter trace].
  match goal with
  | |- context [waitForConditions w page ?s] =>
      destruct (waitForConditions_returns w page s Hsel Hms)
        as (waits & Hwait & Hwaits)
  end.
  rewrite Hwait, Hshot. cbn [adapter trace].
  assert (Hreads_set : List.filter is_set_state reads = [])
    by (apply (filter_disjoint is_config_access); [assumption | now intros []]).
  assert (Hwaits_set : List.filter is_set_state waits = [])
    by (apply (filter_disjoint is_wait_step); [assumption | now intros []]).
  assert (Hreads_shot : List.filter is_screenshot reads = [])
    by (apply (filter_disjoint is_config_access); [assumption | now intros []]).
  assert (Hwaits_shot : List.filter is_screenshot waits = [])
    by (apply (filter_disjoint is_wait_step); [assumption | now intros []]).
  unfold count.
  destruct (setState_result w id (val st) true) as [e|];
    [|destruct (pageClose_result w page) as [e|]];
    cbn [fst snd adapter trace];
    rewrite !List.filter_app, Hreads_set, Hwaits_set, Hreads_shot, Hwaits_shot;
    auto.
Qed.

Lemma onStateChange_acknowledges_once_witness :
  let sys := (run (onStateChange (resolving cfg_filename) url_id
                     (Some (trigger "https://example.com"))) ready).2 in
  (run (onStateChange (resolving cfg_filename) url_id
          (Some (trigger "https://example.com"))) ready).1 = Returned tt
  /\ List.filter is_set_state (trace sys)
     = [ESetState url_id (VStr "https://example.com") true]
  /\ count is_screenshot (trace sys) = 1.
Proof.
  apply (onStateChange_acknowledges_once (resolving cfg_filename) ready
           (BrowserHandle 1) (PageHandle 1) url_id
           (trigger "https://example.com")
           (mkState (VStr "/tmp/out.png") true));
    reflexivity.
Defined.

(** C1, at a navigation failure.  With [filename] configured and a
    navigation that rejects, the handler opens a page, reports the failure
    and returns; the trigger is not acknowledged, and [close] is never
    called on the page that was opened. *)
Theorem onStateChange_navigation_failure_leaves_page_open :
  let sys := (run (onStateChange (unreachable cfg_filename) url_id
                     (Some (trigger "https://unreachable.invalid"))) ready).2 in
  trace sys =
    [EGetState "filename"; EGetState "fullPage"; EGetState "clipLeft";
     ELog Debug (IgnoringClipNotConfigured "clipLeft");
     ELog Debug (ScreenshotOptionsAre
                   (mkOptions (Some (VStr "/tmp/out.png")) None None));
     ELog Info (TakingScreenshotOf (VStr "https://unreachable.invalid"));
     ENewPage (BrowserHandle 1);
     EGoto (PageHandle 1) (VStr "https://unreachable.invalid");
     ELog LogError (CouldNotTakeScreenshot (VStr "https://unreachable.invalid")
                      "net::ERR_NAME_NOT_RESOLVED")]
  /\ count is_new_page (trace sys) = 1
  /\ count is_page_close (trace sys) = 0
  /\ count is_set_state (trace sys) = 0.
Proof.
  vm_compute. auto.
Qed.

(** The callback is not invoked exactly once in every run of [onUnload]:
    with a browser that closes and a callback that throws when first
    invoked, the [catch] block invokes it again, twice in all. *)
Lemma onUnload_throwing_callback_not_once :
  let sys := (run (onUnload (resolving ∅) throws_once) ready).2 in
  trace sys =
    [ELog Info ClosingBrowser; EBrowserClose (BrowserHandle 1);
     ECallback; ECallback]
  /\ count is_callback (trace sys) = 2
  /\ count is_callback (trace sys) <> 1.
Proof.
  vm_compute. repeat split; discriminate.
Qed.

(** C9, as the code has it.  With a callback that does not throw,
    [onUnload] returns without throwing and invokes the callback exactly
    once: when there is no browser, when the browser closes, and when
    closing it rejects. *)
Theorem onUnload_calls_back_once
    (w : World) (a : Adapter) (callback : Callback) :
  (forall n, callback n = None) ->
  (run (onUnload w callback) a).1 = Returned tt
  /\ count is_callback (trace (run (onUnload w callback) a).2) = 1.
Proof.
  intros Hcb.
  unfold run, onUnload, invoke, browser_close. async_unfold.
  destruct (browser a) as [b|]; cbn [adapter trace].
  - destruct (browserClose_result w b) as [e|]; cbn [adapter trace];
      rewrite Hcb; cbn; auto.
  - rewrite Hcb. cbn. auto.
Qed.

Lemma onUnload_calls_back_once_witness :
  (run (onUnload (stuck_browser ∅) (fun _ => None)) ready).1 = Returned tt
  /\ count is_callback
       (trace (run (onUnload (stuck_browser ∅) (fun _ => None)) ready).2) = 1.
Proof.
  apply (onUnload_calls_back_once (stuck_browser ∅) ready (fun _ => None)).
  intros n. reflexivity.
Defined.

(** C10.  [onStateChange] never changes the [browser] field, whatever path
    it takes and from whatever state it starts.  [onReady] leaves the
    field as it was or sets it to the browser that was launched, and
    [onUnload] leaves it as it was or clears it. *)
Theorem browser_field_discipline
    (w : World) (s : Sys) (id : string) (state : option State)
    (callback : Callback) :
  adapter (onStateChange w id state s).2 = adapter s
  /\ (browser (adapter (onReady w s).2) = browser (adapter s)
      \/ exists b, launch_result w = inr b
                   /\ browser (adapter (onReady w s).2) = Some b)
  /\ (browser (adapter (onUnload w callback s).2) = browser (adapter s)
      \/ browser (adapter (onUnload w callback s).2) = None).
Proof.
  split; [|split].
  - destruct (emits_only_onStateChange w id state s) as (tr & Hs & _).
    now rewrite Hs.
  - unfold onReady, subscribeStates, launch. async_unfold.
    destruct (launch_result w) as [e|b]; cbn; eauto.
  - unfold onUnload, invoke, browser_close. async_unfold.
    destruct (browser (adapter s)) as [b|] eqn:Hb; cbn [adapter trace].
    + destruct (browserClose_result w b) as [e|]; cbn [adapter trace].
      * left. destruct (callback _); cbn; assumption.
      * right. repeat (destruct (callback _); cbn [adapter trace browser fst snd]);
          reflexivity.
    + left. repeat (destruct (callback _); cbn [adapter trace browser fst snd]);
        assumption.
Qed.

End HandlerClaims.

(** ** More on the helpers *)

Section ClipRegion.

Variable w : World.

Import PuppeteerAdapter.

(** The loop reads the keys in order up to the first one that holds no
    number, names that key in a debug line and returns nothing. *)
Lemma clip_loop_stops entries pre k post options s :
  entries.*1 = pre ++ k :: post ->
  forallb (fun k => is_number (config w !! k)) pre = true ->
  is_number (config w !! k) = false ->
  clip_loop w entries options s =
    (Returned None,
     mkSys (adapter s)
       (trace s ++ (EGetState <$> pre) ++
        [EGetState k; ELog Debug (IgnoringClipNotConfigured k)])).
Proof.
  revert entries options s.
  induction pre as [|k0 pre IH]; intros entries options s Hkeys Hpre Hk;
    destruct entries as [|[id attributeName] rest]; try discriminate Hkeys;
    cbn in Hkeys; injection Hkeys as -> Hrest;
    cbn [clip_loop];
    rewrite (bind_returned _ _ _ _ _ (getStateAsync_run w _ s)).
  - destruct (config w !! k) as [[[| | n |] ?]|]; try discriminate Hk;
      async_unfold; now rewrite <- app_assoc.
  - cbn in Hpre. apply andb_prop in Hpre as [Hk0 Hpre].
    destruct (config w !! k0) as [[[| | n |] ?]|]; try discriminate Hk0.
    rewrite (IH rest _ _ Hrest Hpre Hk). cbn [adapter trace fmap list_fmap].
    now rewrite <- app_assoc.
Qed.

End ClipRegion.

Section HelperExtras.

Import PuppeteerAdapter.

(** X1.  When the four clip keys hold numbers, [gatherScreenshotClipOptions]
    reads them in the order clipLeft, clipTop, clipHeight, clipWidth and
    returns the region with x, y, height and width taken from them in that
    order; it writes no log line. *)
Theorem gatherScreenshotClipOptions_complete
    (w : World) (a : Adapter) (x y h wd : number) (ax ay ah awd : bool) :
  config w !! "clipLeft" = Some (mkState (VNum x) ax) ->
  config w !! "clipTop" = Some (mkState (VNum y) ay) ->
  config w !! "clipHeight" = Some (mkState (VNum h) ah) ->
  config w !! "clipWidth" = Some (mkState (VNum wd) awd) ->
  run (gatherScreenshotClipOptions w) a =
    (Returned (Some (mkClip (Some x) (Some y) (Some h) (Some wd))),
     mkSys a [EGetState "clipLeft"; EGetState "clipTop";
              EGetState "clipHeight"; EGetState "clipWidth"]).
Proof.
  intros Hx Hy Hh Hw.
  unfold run, gatherScreenshotClipOptions, clipAttributes, clip_loop,
    getStateAsync.
  async_unfold. now rewrite Hx, Hy, Hh, Hw.
Qed.

Lemma gatherScreenshotClipOptions_complete_witness :
  run (gatherScreenshotClipOptions (resolving cfg_clip)) ready =
    (Returned (Some (mkClip (Some (finite 10)) (Some (finite 20))
                       (Some (finite 300)) (Some (finite 400)))),
     mkSys ready [EGetState "clipLeft"; EGetState "clipTop";
                  EGetState "clipHeight"; EGetState "clipWidth"]).
Proof.
  apply (gatherScreenshotClipOptions_complete (resolving cfg_clip) ready
           (finite 10) (finite 20) (finite 300) (finite 400)
           true true true true);
    reflexivity.
Defined.

(** X2.  When the [fullPage] state is absent or falsy and the four clip keys
    hold numbers, the options of [gatherScreenshotOptions] carry that clip
    region. *)
Theorem gatherScreenshotOptions_attaches_clip
    (w : World) (a : Adapter) (x y h wd : number) (ax ay ah awd : bool) :
  (forall st, config w !! "fullPage" = Some st -> truthy (val st) = false) ->
  config w !! "clipLeft" = Some (mkState (VNum x) ax) ->
  config w !! "clipTop" = Some (mkState (VNum y) ay) ->
  config w !! "clipHeight" = Some (mkState (VNum h) ah) ->
  config w !! "clipWidth" = Some (mkState (VNum wd) awd) ->
  exists o,
    (run (gatherScreenshotOptions w) a).1 = Returned o
    /\ clip o = Some (mkClip (Some x) (Some y) (Some h) (Some wd))
    /\ not_fullPage o = true.
Proof.
  intros Hfull Hx Hy Hh Hw.
  unfold run, gatherScreenshotOptions, gatherScreenshotClipOptions,
    clipAttributes, clip_loop, getStateAsync.
  async_unfold.
  destruct (config w !! "fullPage") as [fp|] eqn:Hfp.
  - specialize (Hfull fp eq_refl).
    destruct (config w !! "filename") as [fname|];
      [destruct (truthy (val fname))|];
      cbn; rewrite Hfull; cbn; rewrite Hx, Hy, Hh, Hw; cbn; eauto.
  - destruct (config w !! "filename") as [fname|];
      [destruct (truthy (val fname))|];
      cbn; rewrite Hx, Hy, Hh, Hw; cbn; eauto.
Qed.

Lemma gatherScreenshotOptions_attaches_clip_witness :
  exists o,
    (run (gatherScreenshotOptions (resolving cfg_clip)) ready).1 = Returned o
    /\ clip o = Some (mkClip (Some (finite 10)) (Some (finite 20))
                        (Some (finite 300)) (Some (finite 400)))
    /\ not_fullPage o = true.
Proof.
  apply (gatherScreenshotOptions_attaches_clip (resolving cfg_clip) ready
           (finite 10) (finite 20) (finite 300) (finite 400)
           true true true true);
    [intros st Hst; discriminate Hst | reflexivity ..].
Defined.

(** X3.  [gatherScreenshotClipOptions] stops at the first clip key that
    holds no number: the keys before it are read, the key is named in one
    debug line, and the keys after it are not read. *)
Theorem gatherScreenshotClipOptions_stops_at_first_gap
    (w : World) (a : Adapter) (pre post : list string) (k : string) :
  clip_keys = pre ++ k :: post ->
  forallb (fun k => is_number (config w !! k)) pre = true ->
  is_number (config w !! k) = false ->
  run (gatherScreenshotClipOptions w) a =
    (Returned None,
     mkSys a ((EGetState <$> pre) ++
              [EGetState k; ELog Debug (IgnoringClipNotConfigured k)])).
Proof.
  intros Hkeys Hpre Hk. unfold run, gatherScreenshotClipOptions.
  now rewrite (clip_loop_stops w clipAttributes pre k post empty_clip
                 (mkSys a []) Hkeys Hpre Hk).
Qed.

Lemma gatherScreenshotClipOptions_stops_at_first_gap_witness :
  run (gatherScreenshotClipOptions (resolving cfg_partial_clip)) ready =
    (Returned None,
     mkSys ready [EGetState "clipLeft"; EGetState "clipTop";
                  EGetState "clipHeight";
                  ELog Debug (IgnoringClipNotConfigured "clipHeight")]).
Proof.
  apply (gatherScreenshotClipOptions_stops_at_first_gap
           (resolving cfg_partial_clip) ready
           ["clipLeft"; "clipTop"] ["clipWidth"] "clipHeight");
    reflexivity.
Defined.

(** X4.  When [waitForSelector] is absent or empty and [renderTime] holds
    no number, [waitForConditions] reads the two states, asks the page for
    no wait and returns. *)
Theorem waitForConditions_nothing_configured
    (w : World) (a : Adapter) (page : Page) :
  absent_or_empty (config w !! "waitForSelector") = true ->
  is_number (config w !! "renderTime") = false ->
  run (waitForConditions w page) a =
    (Returned tt,
     mkSys a [EGetState "waitForSelector"; EGetState "renderTime"]).
Proof.
  intros Hsel Hrt.
  unfold run, waitForConditions, getStateAsync. async_unfold.
  assert (Hnone : truthy_string (optional_val (config w !! "waitForSelector"))
                  = None).
  { destruct (config w !! "waitForSelector") as [[[| | |[|]] ?]|];
      try discriminate Hsel; reflexivity. }
  rewrite Hnone.
  destruct (config w !! "renderTime") as [[[| | n |] ?]|];
    try discriminate Hrt; reflexivity.
Qed.

Lemma waitForConditions_nothing_configured_witness :
  run (waitForConditions (resolving cfg_filename) (PageHandle 1)) ready =
    (Returned tt,
     mkSys ready [EGetState "waitForSelector"; EGetState "renderTime"]).
Proof.
  apply (waitForConditions_nothing_configured (resolving cfg_filename) ready
           (PageHandle 1));
    reflexivity.
Defined.

(** X5.  A [waitForSelector] state whose value is not a string (a number,
    a boolean, null) is not used as a selector: [renderTime] is read, and a
    truthy number there gives the fixed delay. *)
Theorem waitForConditions_ignores_non_string_selector
    (w : World) (a : Adapter) (page : Page) (sel rt : State) (ms : number) :
  config w !! "waitForSelector" = Some sel ->
  (forall s, val sel <> VStr s) ->
  config w !! "renderTime" = Some rt ->
  val rt = VNum ms ->
  number_truthy ms = true ->
  trace (run (waitForConditions w page) a).2 =
    [EGetState "waitForSelector"; EGetState "renderTime";
     ELog Debug (WaitingForTimeout ms); EWaitForTimeout page ms].
Proof.
  intros Hsel Hns Hrt Hval Hms.
  unfold run, waitForConditions, getStateAsync, page_waitForTimeout.
  async_unfold. rewrite Hsel, Hrt. cbn.
  destruct (val sel) as [| b | n | s] eqn:Hv;
    [| | | now destruct (Hns s)];
    cbn; rewrite Hval; cbn; rewrite Hms;
    destruct (waitForTimeout_result w page ms); reflexivity.
Qed.

Lemma waitForConditions_ignores_non_string_selector_witness :
  trace (run (waitForConditions (resolving cfg_numeric_selector)
                (PageHandle 1)) ready).2 =
    [EGetState "waitForSelector"; EGetState "renderTime";
     ELog Debug (WaitingForTimeout (finite 500));
     EWaitForTimeout (PageHandle 1) (finite 500)].
Proof.
  apply (waitForConditions_ignores_non_string_selector
           (resolving cfg_numeric_selector) ready (PageHandle 1)
           (mkState (VNum (finite 5)) true) (mkState (VNum (finite 500)) true)
           (finite 500));
    [reflexivity | intros s; discriminate | reflexivity ..].
Defined.

End HelperExtras.

(** ** More on the handlers *)

Lemma count_app p tr1 tr2 : count p (tr1 ++ tr2) = count p tr1 + count p tr2.
Proof. unfold count. now rewrite List.filter_app, length_app. Qed.

Lemma count_disjoint (P q : Event -> bool) tr :
  forallb P tr = true -> (forall e, P e = true -> q e = false) ->
  count q tr = 0.
Proof. intros Htr Hd. unfold count. now rewrite (filter_disjoint P q tr). Qed.

Section TriggerPaths.

Variable w : World.

Import PuppeteerAdapter.

(** The options as a function of the configuration, from any state. *)
Lemma gatherScreenshotOptions_fields s :
  exists o tr,
    gatherScreenshotOptions w s =
      (Returned o, mkSys (adapter s) (trace s ++ tr))
    /\ forallb is_config_access tr = true
    /\ path o =
         match config w !! "filename" with
         | Some st => if truthy (val st) then Some (val st) else None
         | None => None
         end
    /\ fullPage o =
         match config w !! "fullPage" with
         | Some st => Some (truthy (val st))
         | None => None
         end.
Proof.
  unfold gatherScreenshotOptions.
  rewrite (bind_returned _ _ _ _ _ (getStateAsync_run w "filename" _)).
  rewrite (bind_returned _ _ _ _ _ (getStateAsync_run w "fullPage" _)).
  cbn [adapter trace].
  set (o2 := match config w !! "fullPage" with
             | Some st => set_fullPage (truthy (val st)) _
             | None => _ end).
  assert (Hpath : path o2 =
            match config w !! "filename" with
            | Some st => if truthy (val st) then Some (val st) else None
            | None => None end).
  { subst o2.
    destruct (config w !! "fullPage"), (config w !! "filename") as [st|];
      try destruct (truthy (val st)); reflexivity. }
  assert (Hfull : fullPage o2 =
            match config w !! "fullPage" with
            | Some st => Some (truthy (val st)) | None => None end).
  { subst o2.
    destruct (config w !! "fullPage"), (config w !! "filename") as [st|];
      try destruct (truthy (val st)); reflexivity. }
  clearbody o2. rewrite <- Hpath, <- Hfull.
  destruct (not_fullPage o2).
  - unfold gatherScreenshotClipOptions.
    destruct (clip_loop_spec w clipAttributes empty_clip
                (mkSys (adapter s) ((trace s ++ [EGetState "filename"]) ++
                                      [EGetState "fullPage"])))
      as (r & tr & Hrun & Htr & _).
    rewrite (bind_returned _ _ _ _ _ Hrun). cbn [adapter trace].
    exists (match r with Some c => set_clip c o2 | None => o2 end),
           (EGetState "filename" :: EGetState "fullPage" :: tr).
    rewrite <- !app_assoc. cbn [app].
    split; [now destruct r|]. split; [exact Htr|]. now destruct r.
  - exists o2, [EGetState "filename"; EGetState "fullPage";
                ELog Debug IgnoringClipFullPage].
    async_unfold. rewrite <- !app_assoc. auto.
Qed.

(** The [try] block of [onStateChange] with its [catch]: it returns, and
    its calls have one of the shapes of [attempt]. *)
Lemma try_block_shape b id v o s :
  browser (adapter s) = Some b ->
  exists tr,
    try_catch
      (page ← this_browser_newPage w;
       page_goto w page v ;;
       waitForConditions w page ;;
       page_screenshot w page o ;;
       log Info ScreenshotSaved ;;
       setStateAsync w id v true ;;
       page_close w page)
      (fun e => log LogError (CouldNotTakeScreenshot v (message e))) s
    = (Returned tt, mkSys (adapter s) (trace s ++ tr))
    /\ attempt b id v o tr.
Proof.
  intros Hb.
  unfold this_browser_newPage, newPage, page_goto, page_screenshot,
    setStateAsync, page_close.
  async_unfold. rewrite Hb.
  destruct (newPage_result w b) as [e|p]; cbn [adapter trace].
  { eexists. split; [rewrite <- !app_assoc; reflexivity | constructor]. }
  destruct (goto_result w p v) as [e|]; cbn [adapter trace].
  { eexists. split; [rewrite <- !app_assoc; reflexivity | constructor]. }
  match goal with
  | |- context [waitForConditions w p ?s1] =>
      destruct (emits_only_waitForConditions w p s1) as (waits & Hs & Hwaits);
      destruct (waitForConditions w p s1) as [[[]|e] s2]
  end; cbn [snd adapter trace] in Hs; subst s2; cbn [adapter trace].
  2: { eexists. split; [rewrite <- !app_assoc; reflexivity|].
       now apply attempt_wait_rejects. }
  destruct (screenshot_result w p o) as [e|]; cbn [adapter trace].
  { eexists. split; [rewrite <- !app_assoc; reflexivity|].
    now apply attempt_screenshot_rejects. }
  destruct (setState_result w id v true) as [e|]; cbn [adapter trace].
  { eexists. split; [rewrite <- !app_assoc; reflexivity|].
    now apply attempt_setState_rejects. }
  destruct (pageClose_result w p) as [e|]; cbn [adapter trace].
  { eexists. split; [rewrite <- !app_assoc; reflexivity|].
    now apply attempt_close_rejects. }
  eexists. split; [rewrite <- !app_assoc; reflexivity|].
  now apply attempt_completes.
Qed.

(** The three ways a run of [onStateChange] can go: the notification is
    ignored, the trigger is refused for want of a filename, or a capture
    is attempted. *)
Lemma onStateChange_cases a id state :
  ((browser a = None \/ wants_screenshot state = None)
   /\ run (onStateChange w id state) a = (Returned tt, mkSys a []))
  \/ (exists reads,
        forallb is_config_access reads = true
        /\ run (onStateChange w id state) a =
             (Returned tt,
              mkSys a (reads ++ [ELog LogError PleaseSpecifyFilename])))
  \/ (exists b st o reads tr,
        browser a = Some b
        /\ wants_screenshot state = Some st
        /\ run (gatherScreenshotOptions w) a = (Returned o, mkSys a reads)
        /\ forallb is_config_access reads = true
        /\ not_path o = false
        /\ attempt b id (val st) o tr
        /\ run (onStateChange w id state) a =
             (Returned tt,
              mkSys a (reads ++
                       [ELog Debug (ScreenshotOptionsAre o);
                        ELog Info (TakingScreenshotOf (val st))] ++ tr))).
Proof.
  unfold run, onStateChange.
  rewrite (bind_returned get_browser _ (mkSys a []) _ _ eq_refl).
  cbn [adapter browser].
  destruct (browser a) as [b|] eqn:Hb; [|left; auto].
  destruct (wants_screenshot state) as [st|] eqn:Hst; [|left; auto].
  right.
  destruct (gatherScreenshotOptions_spec w (mkSys a []))
    as (o & reads & Hrun & Hreads & _).
  cbn [adapter trace app] in Hrun.
  rewrite (bind_returned _ _ _ _ _ Hrun).
  destruct (not_path o) eqn:Hpath.
  - left. exists reads. split; [assumption | reflexivity].
  - right.
    destruct (try_block_shape b id (val st) o
                (mkSys a ((reads ++ [ELog Debug (ScreenshotOptionsAre o)]) ++
                          [ELog Info (TakingScreenshotOf (val st))])) Hb)
      as (tr & Htry & Hshape).
    exists b, st, o, reads, tr.
    repeat (split; [assumption || reflexivity|]).
    rewrite (bind_returned (log Debug _) _ _ _ _ eq_refl). cbn [adapter trace].
    rewrite (bind_returned (log Info _) _ _ _ _ eq_refl). cbn [adapter trace].
    rewrite Htry. cbn [adapter trace].
    now rewrite <- !app_assoc.
Qed.

(** A [waitForConditions] that throws throws the rejection of the wait it
    asked the page for. *)
Lemma waitForConditions_thrown page s e s' :
  waitForConditions w page s = (Thrown e, s') ->
  (exists selector, waitForSelector_result w page selector = Some e)
  \/ (exists ms, waitForTimeout_result w page ms = Some e).
Proof.
  unfold waitForConditions, getStateAsync, page_waitForSelector,
    page_waitForTimeout.
  async_unfold.
  destruct (truthy_string _) as [selector|].
  - destruct (waitForSelector_result w page selector) as [e0|] eqn:Hsel;
      intros [= <- _]. eauto.
  - cbn. destruct (truthy_number _) as [ms|]; [|discriminate].
    destruct (waitForTimeout_result w page ms) as [e0|] eqn:Hms;
      intros [= <- _]. eauto.
Qed.

(** The [try] block again: when it does not reach the acknowledgement, its
    last call is the error line for the rejection that stopped it. *)
Lemma try_block_unacknowledged b id v o s :
  browser (adapter s) = Some b ->
  exists tr,
    try_catch
      (page ← this_browser_newPage w;
       page_goto w page v ;;
       waitForConditions w page ;;
       page_screenshot w page o ;;
       log Info ScreenshotSaved ;;
       setStateAsync w id v true ;;
       page_close w page)
      (fun e => log LogError (CouldNotTakeScreenshot v (message e))) s
    = (Returned tt, mkSys (adapter s) (trace s ++ tr))
    /\ (count is_set_state tr = 0 ->
        exists e, rejected_before_ack w b v o e
                  /\ last tr = Some (report v e)).
Proof.
  intros Hb.
  unfold this_browser_newPage, newPage, page_goto, page_screenshot,
    setStateAsync, page_close, rejected_before_ack.
  async_unfold. rewrite Hb.
  destruct (newPage_result w b) as [e|p] eqn:Hpage; cbn [adapter trace].
  { eexists. split; [rewrite <- !app_assoc; reflexivity|].
    intros _. exists e. split; [now left | reflexivity]. }
  destruct (goto_result w p v) as [e|] eqn:Hgoto; cbn [adapter trace].
  { eexists. split; [rewrite <- !app_assoc; reflexivity|].
    intros _. exists e. split; [right; exists p; auto | reflexivity]. }
  match goal with
  | |- context [waitForConditions w p ?s1] =>
      destruct (emits_only_waitForConditions w p s1) as (waits & Hs & Hwaits);
      destruct (waitForConditions w p s1) as [[[]|e] s2] eqn:Hwait
  end; cbn [snd adapter trace] in Hs; subst s2; cbn [adapter trace].
  2: { eexists. split; [rewrite <- !app_assoc; reflexivity|].
       intros _. exists e. split.
       - right. exists p. split; [reflexivity|].
         destruct (waitForConditions_thrown _ _ _ _ Hwait); auto.
       - cbn [app]. now rewrite !last_cons, last_snoc. }
  destruct (screenshot_result w p o) as [e|] eqn:Hshot; cbn [adapter trace].
  { eexists. split; [rewrite <- !app_assoc; reflexivity|].
    intros _. exists e. split; [right; exists p; auto 6|].
    cbn [app]. rewrite !last_cons, last_app. reflexivity. }
  assert (Hzero : List.filter is_set_state waits = [])
    by (apply (filter_disjoint is_wait_step); [assumption | now intros []]).
  destruct (setState_result w id v true) as [e|]; cbn [adapter trace];
    [|destruct (pageClose_result w p) as [e|]; cbn [adapter trace]];
    (eexists; split; [rewrite <- !app_assoc; reflexivity|]);
    unfold count; cbn; rewrite List.filter_app, Hzero; cbn; discriminate.
Qed.

(** A trigger with the browser up: either it is refused for want of a
    filename, or the [try] block runs on the options gathered. *)
Lemma onStateChange_trigger_report a b id st :
  browser a = Some b ->
  wants_screenshot (Some st) = Some st ->
  (exists reads,
     forallb is_config_access reads = true
     /\ run (onStateChange w id (Some st)) a =
          (Returned tt,
           mkSys a (reads ++ [ELog LogError PleaseSpecifyFilename])))
  \/ (exists o reads tr,
        (run (gatherScreenshotOptions w) a).1 = Returned o
        /\ forallb is_config_access reads = true
        /\ run (onStateChange w id (Some st)) a =
             (Returned tt,
              mkSys a (reads ++
                       [ELog Debug (ScreenshotOptionsAre o);
                        ELog Info (TakingScreenshotOf (val st))] ++ tr))
        /\ (count is_set_state tr = 0 ->
            exists e, rejected_before_ack w b (val st) o e
                      /\ last tr = Some (report (val st) e))).
Proof.
  intros Hb Hwants.
  unfold run, onStateChange.
  rewrite (bind_returned get_browser _ (mkSys a []) _ _ eq_refl).
  cbn [adapter browser]. rewrite Hb, Hwants.
  destruct (gatherScreenshotOptions_spec w (mkSys a []))
    as (o & reads & Hrun & Hreads & _).
  cbn [adapter trace app] in Hrun.
  rewrite (bind_returned _ _ _ _ _ Hrun).
  destruct (not_path o) eqn:Hpath.
  - left. exists reads. split; [assumption | reflexivity].
  - right.
    destruct (try_block_unacknowledged b id (val st) o
                (mkSys a ((reads ++ [ELog Debug (ScreenshotOptionsAre o)]) ++
                          [ELog Info (TakingScreenshotOf (val st))])) Hb)
      as (tr & Htry & Hreport).
    exists o, reads, tr.
    split; [now rewrite Hrun|]. split; [assumption|].
    split; [|exact Hreport].
    rewrite (bind_returned (log Debug _) _ _ _ _ eq_refl). cbn [adapter trace].
    rewrite (bind_returned (log Info _) _ _ _ _ eq_refl). cbn [adapter trace].
    rewrite Htry. cbn [adapter trace].
    now rewrite <- !app_assoc.
Qed.

End TriggerPaths.

(** What the shapes of [attempt] say about the order of the steps and about
    the last call. *)
Lemma attempt_counts b id v o tr :
  attempt b id v o tr ->
  count is_page_close tr <= count is_set_state tr
  /\ count is_set_state tr <= count is_screenshot tr
  /\ count is_screenshot tr <= count is_goto tr
  /\ count is_goto tr <= count is_new_page tr
  /\ count is_new_page tr = 1.
Proof.
  intros [e | p e | p waits e Hw | p waits e Hw | p waits e Hw
         | p waits e Hw | p waits Hw];
    unfold count; cbn;
    rewrite ?List.filter_app,
      ?(filter_disjoint is_wait_step _ waits) by (assumption || now intros []);
    cbn; lia.
Qed.

Section HandlerExtras.

Import PuppeteerAdapter.

(** X6.  No rejection escapes [onStateChange]: whether [newPage], [goto],
    the waits, [screenshot], the acknowledgement write and [close] resolve
    or reject, and whatever the notification and the configuration, the
    handler returns.  (Reading a state and logging are taken not to
    throw.) *)
Theorem onStateChange_never_throws
    (w : World) (a : Adapter) (id : string) (state : option State) :
  (run (onStateChange w id state) a).1 = Returned tt.
Proof.
  destruct (onStateChange_cases w a id state)
    as [[_ Hrun] | [(reads & _ & Hrun)
                   | (b & st & o & reads & tr & _ & _ & _ & _ & _ & _ & Hrun)]];
    now rewrite Hrun.
Qed.

(** X7.  In every run of [onStateChange] the steps come in order and at
    most once: no page is closed that was not acknowledged for, nothing is
    acknowledged without a screenshot call, no screenshot is asked for
    without a navigation, no navigation without a page, and at most one
    page is opened. *)
Theorem onStateChange_steps_in_order
    (w : World) (a : Adapter) (id : string) (state : option State) :
  let tr := trace (run (onStateChange w id state) a).2 in
  count is_page_close tr <= count is_set_state tr
  /\ count is_set_state tr <= count is_screenshot tr
  /\ count is_screenshot tr <= count is_goto tr
  /\ count is_goto tr <= count is_new_page tr
  /\ count is_new_page tr <= 1.
Proof.
  destruct (onStateChange_cases w a id state)
    as [[_ Hrun] | [(reads & Hreads & Hrun)
                   | (b & st & o & reads & tr & _ & _ & _ & Hreads & _
                      & Hshape & Hrun)]];
    rewrite Hrun; cbn [snd trace].
  - cbn. lia.
  - rewrite !count_app,
      !(count_disjoint is_config_access _ reads Hreads) by now intros [].
    cbn. lia.
  - destruct (attempt_counts _ _ _ _ _ Hshape) as (H1 & H2 & H3 & H4 & H5).
    rewrite !count_app,
      !(count_disjoint is_config_access _ reads Hreads) by now intros [].
    cbn. lia.
Qed.

(** X8.  When the reads of the configuration answer (reading a state and
    logging are taken not to throw), a trigger is not dropped in silence:
    with the browser up, a run that does not write the acknowledgement
    ends with an error line.  The line is the one asking for a filename,
    or the one naming the trigger's value with the message of the error
    that ended the run: the rejection of [newPage], of [goto], of a wait
    or of [screenshot] with the options gathered. *)
Theorem onStateChange_unacknowledged_is_reported
    (w : World) (a : Adapter) (b : Browser) (id : string) (st : State) :
  browser a = Some b ->
  truthy (val st) = true ->
  ack st = false ->
  count is_set_state (trace (run (onStateChange w id (Some st)) a).2) = 0 ->
  last (trace (run (onStateChange w id (Some st)) a).2)
    = Some (ELog LogError PleaseSpecifyFilename)
  \/ exists o e,
       (run (gatherScreenshotOptions w) a).1 = Returned o
       /\ rejected_before_ack w b (val st) o e
       /\ last (trace (run (onStateChange w id (Some st)) a).2)
            = Some (report (val st) e).
Proof.
  intros Hb Hval Hack.
  assert (Hwants : wants_screenshot (Some st) = Some st)
    by (unfold wants_screenshot; now rewrite Hval, Hack).
  destruct (onStateChange_trigger_report w a b id st Hb Hwants)
    as [(reads & Hreads & Hrun)
       | (o & reads & tr & Ho & Hreads & Hrun & Hreport)];
    rewrite Hrun; cbn [snd trace]; intros Hcount.
  - left. now rewrite last_snoc.
  - right.
    rewrite !count_app,
      (count_disjoint is_config_access _ reads Hreads) in Hcount
      by now intros [].
    cbn in Hcount.
    destruct (Hreport Hcount) as (e & Hrej & Hlast).
    exists o, e. repeat split; [assumption .. |].
    rewrite !last_app, Hlast. reflexivity.
Qed.

Lemma onStateChange_unacknowledged_is_reported_witness :
  last (trace (run (onStateChange (unreachable cfg_filename) url_id
                      (Some (trigger "https://unreachable.invalid")))
                 ready).2)
    = Some (ELog LogError PleaseSpecifyFilename)
  \/ exists o e,
       (run (gatherScreenshotOptions (unreachable cfg_filename)) ready).1
         = Returned o
       /\ rejected_before_ack (unreachable cfg_filename) (BrowserHandle 1)
            (VStr "https://unreachable.invalid") o e
       /\ last (trace (run (onStateChange (unreachable cfg_filename) url_id
                              (Some (trigger "https://unreachable.invalid")))
                         ready).2)
            = Some (report (VStr "https://unreachable.invalid") e).
Proof.
  apply (onStateChange_unacknowledged_is_reported (unreachable cfg_filename)
           ready (BrowserHandle 1) url_id
           (trigger "https://unreachable.invalid"));
    reflexivity.
Defined.

(** X9.  When the selector configured in [waitForSelector] does not
    appear (the wait rejects), the run ends with the error line carrying
    the message of that rejection; the screenshot is not taken, the trigger
    is not acknowledged, and [renderTime] is not read. *)
Theorem onStateChange_selector_rejects
    (w : World) (a : Adapter) (b : Browser) (page : Page) (id : string)
    (st filename sel : State) (selector : string) (e : Error) :
  browser a = Some b ->
  truthy (val st) = true ->
  ack st = false ->
  config w !! "filename" = Some filename ->
  truthy (val filename) = true ->
  newPage_result w b = inr page ->
  goto_result w page (val st) = None ->
  config w !! "waitForSelector" = Some sel ->
  val sel = VStr selector ->
  selector <> "" ->
  waitForSelector_result w page selector = Some e ->
  exists o reads,
    forallb is_config_access reads = true
    /\ run (onStateChange w id (Some st)) a =
         (Returned tt,
          mkSys a (reads ++
                   [ELog Debug (ScreenshotOptionsAre o);
                    ELog Info (TakingScreenshotOf (val st));
                    ENewPage b; EGoto page (val st);
                    EGetState "waitForSelector";
                    ELog Debug (WaitingForSelector selector);
                    EWaitForSelector page selector;
                    report (val st) e])).
Proof.
  intros Hb Hval Hack Hfile Hname Hpage Hgoto Hsel Hselv Hne Hrej.
  unfold run, onStateChange, wants_screenshot, this_browser_newPage, newPage,
    page_goto, waitForConditions, getStateAsync, page_waitForSelector.
  async_unfold.
  rewrite Hb, Hval, Hack. cbn [andb negb].
  destruct (gatherScreenshotOptions_spec w (mkSys a []))
    as (o & reads & Hrun & Hreads & Hpath & _).
  rewrite Hrun. cbn [adapter trace app] in *.
  rewrite Hfile, Hname in Hpath. cbn in Hpath. rewrite Hpath.
  cbn [adapter trace]. rewrite Hb, Hpage. cbn [adapter trace].
  rewrite Hgoto. cbn [adapter trace].
  rewrite Hsel. cbn [optional_val fmap option_fmap option_map truthy_string].
  rewrite Hselv.
  destruct selector as [|c selector]; [congruence|].
  cbn [truthy_string string_truthy]. rewrite Hrej. cbn [adapter trace].
  exists o, reads. split; [assumption|].
  unfold report. now rewrite <- !app_assoc.
Qed.

Lemma onStateChange_selector_rejects_witness :
  exists o reads,
    forallb is_config_access reads = true
    /\ run (onStateChange (selector_timeout cfg_selector_and_renderTime)
              url_id (Some (trigger "https://example.com"))) ready =
         (Returned tt,
          mkSys ready
            (reads ++
             [ELog Debug (ScreenshotOptionsAre o);
              ELog Info (TakingScreenshotOf (VStr "https://example.com"));
              ENewPage (BrowserHandle 1);
              EGoto (PageHandle 1) (VStr "https://example.com");
              EGetState "waitForSelector";
              ELog Debug (WaitingForSelector "#main");
              EWaitForSelector (PageHandle 1) "#main";
              report (VStr "https://example.com")
                (mkError "waiting for selector failed: timeout")])).
Proof.
  apply (onStateChange_selector_rejects
           (selector_timeout cfg_selector_and_renderTime) ready
           (BrowserHandle 1) (PageHandle 1) url_id
           (trigger "https://example.com")
           (mkState (VStr "/tmp/out.png") true)
           (mkState (VStr "#main") true) "#main"
           (mkError "waiting for selector failed: timeout"));
    [reflexivity .. | discriminate | reflexivity].
Defined.



(** X11.  When the reads of the configuration answer (reading a state and
    logging are taken not to throw), [gatherScreenshotOptions] returns, and
    all it does is read configuration states and write debug lines.  In
    the options, [path] is
    the value of [filename] when that value is truthy and is unset
    otherwise, and [fullPage] is the truthiness of the [fullPage] state
    when the state exists and is unset otherwise. *)
Theorem gatherScreenshotOptions_path_and_fullPage (w : World) (a : Adapter) :
  exists o tr,
    run (gatherScreenshotOptions w) a = (Returned o, mkSys a tr)
    /\ forallb is_config_access tr = true
    /\ path o =
         match config w !! "filename" with
         | Some st => if truthy (val st) then Some (val st) else None
         | None => None
         end
    /\ fullPage o =
         match config w !! "fullPage" with
         | Some st => Some (truthy (val st))
         | None => None
         end.
Proof.
  destruct (gatherScreenshotOptions_fields w (mkSys a []))
    as (o & tr & Hrun & Htr & Hpath & Hfull).
  exists o, tr. unfold run. rewrite Hrun. auto.
Qed.

(** ** The life cycle *)

(** X12.  When the browser launches and later closes, [onReady] followed
    by [onUnload] subscribes to [url] before launching, closes the very
    browser that was launched, invokes the callback once and leaves the
    adapter without a browser, whatever the field held before. *)
Theorem onReady_then_onUnload
    (w : World) (a : Adapter) (b : Browser) (callback : Callback) :
  launch_result w = inr b ->
  browserClose_result w b = None ->
  (forall n, callback n = None) ->
  run (onReady w ;; onUnload w callback) a =
    (Returned tt,
     mkSys (mkAdapter None)
       [ESubscribeStates "url"; ELaunch; ELog Info ReadyToTakeScreenshots;
        ELog Info ClosingBrowser; EBrowserClose b; ECallback]).
Proof.
  intros Hlaunch Hclose Hcb.
  unfold run, onReady, onUnload, invoke, subscribeStates, launch,
    browser_close.
  async_unfold. rewrite Hlaunch. cbn [adapter trace browser].
  rewrite Hclose. cbn [adapter trace browser]. now rewrite Hcb.
Qed.

Lemma onReady_then_onUnload_witness :
  run (onReady (resolving ∅) ;; onUnload (resolving ∅) (fun _ => None))
    unloaded =
    (Returned tt,
     mkSys (mkAdapter None)
       [ESubscribeStates "url"; ELaunch; ELog Info ReadyToTakeScreenshots;
        ELog Info ClosingBrowser; EBrowserClose (BrowserHandle 1); ECallback]).
Proof.
  apply (onReady_then_onUnload (resolving ∅) unloaded (BrowserHandle 1)
           (fun _ => None));
    [reflexivity | reflexivity | intros n; reflexivity].
Defined.

(** X13.  When the browser does not launch, [onReady] throws the launch
    error after it has subscribed, writes no ready line and leaves the
    adapter without a browser; every later notification is then ignored
    without a call to any collaborator. *)
Theorem onReady_launch_failure
    (w : World) (a : Adapter) (e : Error) (id : string)
    (state : option State) :
  browser a = None ->
  launch_result w = inl e ->
  run (onReady w) a = (Thrown e, mkSys a [ESubscribeStates "url"; ELaunch])
  /\ onStateChange w id state (run (onReady w) a).2 =
       (Returned tt, (run (onReady w) a).2).
Proof.
  intros Hb Hlaunch.
  assert (Hrun : run (onReady w) a =
                 (Thrown e, mkSys a [ESubscribeStates "url"; ELaunch])).
  { unfold run, onReady, subscribeStates, launch. async_unfold.
    now rewrite Hlaunch. }
  split; [exact Hrun|]. rewrite Hrun. cbn [snd].
  unfold onStateChange. async_unfold. now rewrite Hb.
Qed.

Lemma onReady_launch_failure_witness :
  run (onReady (launch_failing ∅)) unloaded =
    (Thrown (mkError "Failed to launch the browser process"),
     mkSys unloaded [ESubscribeStates "url"; ELaunch])
  /\ onStateChange (launch_failing ∅) url_id
       (Some (trigger "https://example.com"))
       (run (onReady (launch_failing ∅)) unloaded).2 =
       (Returned tt, (run (onReady (launch_failing ∅)) unloaded).2).
Proof.
  apply (onReady_launch_failure (launch_failing ∅) unloaded
           (mkError "Failed to launch the browser process") url_id
           (Some (trigger "https://example.com")));
    reflexivity.
Defined.

(** X14.  After an [onUnload] in which the browser closed, the adapter has
    no browser: a later notification is ignored without any call, and a
    second [onUnload] does not close the browser again, it only invokes the
    callback. *)
Theorem onUnload_then_nothing
    (w : World) (a : Adapter) (b : Browser) (callback : Callback)
    (id : string) (state : option State) :
  browser a = Some b ->
  browserClose_result w b = None ->
  (forall n, callback n = None) ->
  let s := (run (onUnload w callback) a).2 in
  s = mkSys (mkAdapter None)
        [ELog Info ClosingBrowser; EBrowserClose b; ECallback]
  /\ onStateChange w id state s = (Returned tt, s)
  /\ onUnload w callback s =
       (Returned tt, mkSys (mkAdapter None) (trace s ++ [ECallback])).
Proof.
  intros Hb Hclose Hcb.
  assert (Hs : (run (onUnload w callback) a).2 =
               mkSys (mkAdapter None)
                 [ELog Info ClosingBrowser; EBrowserClose b; ECallback]).
  { unfold run, onUnload, invoke, browser_close. async_unfold.
    rewrite Hb. cbn [adapter trace browser]. rewrite Hclose.
    cbn [adapter trace browser]. now rewrite Hcb. }
  cbn zeta. rewrite Hs. split; [reflexivity|]. split.
  - unfold onStateChange. async_unfold. reflexivity.
  - unfold onUnload, invoke. async_unfold. now rewrite Hcb.
Qed.

Lemma onUnload_then_nothing_witness :
  let s := (run (onUnload (resolving ∅) (fun _ => None)) ready).2 in
  s = mkSys (mkAdapter None)
        [ELog Info ClosingBrowser; EBrowserClose (BrowserHandle 1); ECallback]
  /\ onStateChange (resolving ∅) url_id
       (Some (trigger "https://example.com")) s = (Returned tt, s)
  /\ onUnload (resolving ∅) (fun _ => None) s =
       (Returned tt, mkSys (mkAdapter None) (trace s ++ [ECallback])).
Proof.
  apply (onUnload_then_nothing (resolving ∅) ready (BrowserHandle 1)
           (fun _ => None) url_id (Some (trigger "https://example.com")));
    [reflexivity | reflexivity | intros n; reflexivity].
Defined.

(** X15.  When closing the browser rejects, [onUnload] swallows the error
    and invokes the callback, but the [browser] field keeps the handle: it
    is cleared only after a close that resolved. *)
Theorem onUnload_close_rejects_keeps_handle
    (w : World) (b : Browser) (e : Error) (callback : Callback) :
  browserClose_result w b = Some e ->
  (forall n, callback n = None) ->
  run (onUnload w callback) (mkAdapter (Some b)) =
    (Returned tt,
     mkSys (mkAdapter (Some b))
       [ELog Info ClosingBrowser; EBrowserClose b; ECallback]).
Proof.
  intros Hclose Hcb.
  unfold run, onUnload, invoke, browser_close. async_unfold.
  rewrite Hclose. cbn [adapter trace browser]. now rewrite Hcb.
Qed.

Lemma onUnload_close_rejects_keeps_handle_witness :
  run (onUnload (stuck_browser ∅) (fun _ => None))
    (mkAdapter (Some (BrowserHandle 1))) =
    (Returned tt,
     mkSys (mkAdapter (Some (BrowserHandle 1)))
       [ELog Info ClosingBrowser; EBrowserClose (BrowserHandle 1); ECallback]).
Proof.
  apply (onUnload_close_rejects_keeps_handle (stuck_browser ∅)
           (BrowserHandle 1) (mkError "Protocol error: Target closed")
           (fun _ => None));
    [reflexivity | intros n; reflexivity].
Defined.

(** X16.  A callback that throws when [onUnload] invokes it in the [try]
    block is invoked a second time from the [catch] block; what that second
    invocation does is the outcome of [onUnload].  (Here the close, if
    there is one, resolves.) *)
Theorem onUnload_throwing_callback_invoked_twice
    (w : World) (a : Adapter) (callback : Callback) (e : Error) :
  (forall b, browser a = Some b -> browserClose_result w b = None) ->
  callback 0 = Some e ->
  count is_callback (trace (run (onUnload w callback) a).2) = 2
  /\ (run (onUnload w callback) a).1 =
       match callback 1 with
       | Some e' => Thrown e'
       | None => Returned tt
       end.
Proof.
  intros Hclose Hcb.
  unfold run, onUnload, invoke, browser_close. async_unfold.
  destruct (browser a) as [b|]; cbn [adapter trace browser].
  - rewrite (Hclose b eq_refl). cbn [adapter trace browser].
    cbn [app count List.filter is_callback length].
    rewrite Hcb. cbn [adapter trace app count List.filter is_callback length].
    destruct (callback 1); cbn; auto.
  - cbn [app count List.filter is_callback length].
    rewrite Hcb. cbn [adapter trace app count List.filter is_callback length].
    destruct (callback 1); cbn; auto.
Qed.

Lemma onUnload_throwing_callback_invoked_twice_witness :
  count is_callback
    (trace (run (onUnload (resolving ∅) throws_once) ready).2) = 2
  /\ (run (onUnload (resolving ∅) throws_once) ready).1 =
       match throws_once 1 with
       | Some e' => Thrown e'
       | None => Returned tt
       end.
Proof.
  apply (onUnload_throwing_callback_invoked_twice (resolving ∅) ready
           throws_once (mkError "callback failed"));
    [intros b Hb; reflexivity | reflexivity].
Defined.

End HandlerExtras.
